(** * Incremental kline download: a model of [scripts/download_binance.py]

    The script keeps one CSV table of candlestick bars per data source.  For
    every configured source it reads the table already on disk (if any),
    picks the instant from which to ask the exchange again, asks year by
    year, merges what comes back, drops the last (still open) bar and writes
    the table back.

    The development follows the script: [main] and
    [get_binance_historical_klines] are translated statement by statement
    into a state-and-exception monad over a [World] (the files on disk, the
    clock, and a chronological trace of log lines, remote calls and file
    operations).  The merge [klines_to_df] lives in [common.utils], outside
    of the script; the script is verified for an arbitrary merge, and the
    merge contract itself is studied on a model written from the
    specification (module [SeriesMerger]). *)

From stdpp Require Import gmap strings list sorting.

Open Scope Z_scope.

(** ** Instants and durations

    A naive [datetime] is the number of microseconds since 1970-01-01
    00:00:00, a [timedelta] a number of microseconds; both are unbounded
    integers here, as the arithmetic of the script stays far from
    [datetime.max]. *)

Definition datetime := Z.
Definition timedelta := Z.

Definition days (n : Z) : timedelta := n * 86400000000.

(** [datetime(2017, 1, 1)]: 17167 days after the epoch. *)
Definition datetime_2017_01_01 : datetime := days 17167.

(** [pd.to_datetime(x, unit='ms')] *)
Definition of_millis (ms : Z) : datetime := ms * 1000.

(** ** Values, tables, exceptions

    A field of a table is a string or a timestamp.  The syntax of ISO-8601
    is not modelled: the string that renders the instant [t] is [IsoText t]
    and every other string is [Text s], so that [isoformat] is injective and
    [fromisoformat], [pd.to_datetime] invert it, as they do in Python. *)

Inductive cell :=
| Text (s : string)
| IsoText (t : datetime)
| Stamp (t : datetime).

(** A [DataFrame] has named columns and positional rows.  The frame's index
    is not modelled: the script only uses positions ([iloc]). *)
Record DataFrame := { columns : list string; rows : list (list cell) }.

(** One kline as python-binance returns it: [kline[0]] is the open time in
    milliseconds, the other entries are the prices and volumes. *)
Record Kline := { open_time : Z; entries : list string }.

Inductive HistoricalKlinesType := SPOT | FUTURES.

Inductive Exn :=
| KeyError (key : string)
| IndexError
| ValueError
| AttributeError
| UnboundLocalError
| FileNotFoundError
| BinanceAPIException (code : Z).

(** The arguments of [Client.get_historical_klines]; [start_str] and
    [end_str] are ISO strings, named by the instant they render. *)
Record Request := {
  req_symbol : string;
  req_interval : string;
  req_start_str : datetime;
  req_end_str : option datetime;
  req_klines_type : HistoricalKlinesType
}.

Record Client := {
  get_klines : string -> string -> Z -> Exn + list Kline;
  get_historical_klines : Request -> Exn + list Kline
}.

(** ** The world and its trace *)

Inductive Message :=
| LoadingConfigurations
| StartingDownload (pandas_freq binance_freq data_path : string)
| FolderNotSpecified
| StartDownloading (quote config_type : string)
| FileNotFound (quote binance_freq : string)
| FileFound (quote binance_freq : string) (latest_ts : datetime) (file_name : string)
| Fetching (since : datetime) (until : option datetime)
| OverallRows (size : nat)
| FinishedSymbol (symbol file_name : string)
| FinishedDownloading (elapsed : timedelta).

(** What a run does, in order: [load_config], [os.makedirs] for the logs
    folder, [logger.addHandler(logging.FileHandler(path))], the construction
    of the client, the lines logged, [Path.mkdir] for the folder of a data
    source, the calls to the exchange, [pd.read_csv] and [df.to_csv].  From
    [AddFileHandler path] on, every [Info] and [Error] is also a line
    appended to the file [path]. *)
Inductive Event :=
| LoadConfig
| Makedirs (path : string)
| AddFileHandler (path : string)
| NewClient (api_key api_secret : string)
| Info (m : Message)
| Error (m : Message)
| Mkdir (path : string)
| CallGetKlines (symbol interval : string) (limit : Z)
| CallGetHistoricalKlines (r : Request)
| ReadCsv (file_name : string)
| ToCsv (file_name : string) (df : DataFrame).

(** [files] are the tables on disk, by path; the log file is read off the
    trace. *)
Record World := {
  files : gmap string DataFrame;
  ticks : nat;
  trace : list Event
}.

Inductive Outcome (A : Type) :=
| Ok (a : A)
| Raise (e : Exn)
| OutOfFuel.
Arguments Ok {A} a.
Arguments Raise {A} e.
Arguments OutOfFuel {A}.

(** Effects made before an exception stay in the world. *)
Definition M (A : Type) : Type := World -> Outcome A * World.

Definition ret {A} (a : A) : M A := fun w => (Ok a, w).

Definition bind {A B} (m : M A) (k : A -> M B) : M B :=
  fun w =>
    match m w with
    | (Ok a, w') => k a w'
    | (Raise e, w') => (Raise e, w')
    | (OutOfFuel, w') => (OutOfFuel, w')
    end.

Definition raise {A} (e : Exn) : M A := fun w => (Raise e, w).

Definition out_of_fuel {A} : M A := fun w => (OutOfFuel, w).

Definition lift {A} (r : Exn + A) : M A :=
  match r with inl e => raise e | inr a => ret a end.

Declare Scope py_scope.
Delimit Scope py_scope with py.
Notation "x <- m ;; k" := (bind m (fun x => k))
  (at level 100, m at next level, right associativity) : py_scope.
Notation "m ;; k" := (bind m (fun _ => k))
  (at level 100, right associativity) : py_scope.
Open Scope py_scope.

Definition emit (e : Event) : M unit :=
  fun w => (Ok tt, {| files := files w; ticks := ticks w; trace := trace w ++ [e] |}).

Definition logger_info (m : Message) : M unit := emit (Info m).
Definition logger_error (m : Message) : M unit := emit (Error m).

(** ** pandas *)

(** [pd.DataFrame()] *)
Definition empty_frame : DataFrame := {| columns := []; rows := [] |}.

(** [df.columns.get_loc(name)] *)
Fixpoint get_loc (name : string) (cols : list string) : option nat :=
  match cols with
  | [] => None
  | c :: cs => if decide (c = name) then Some 0%nat else S <$> get_loc name cs
  end.

Definition cell_at (i : nat) (r : list cell) : cell := default (Text "") (r !! i).

(** [df[name]] *)
Definition getitem (name : string) (df : DataFrame) : Exn + list cell :=
  match get_loc name (columns df) with
  | None => inl (KeyError name)
  | Some i => inr (cell_at i <$> rows df)
  end.

(** [df[name] = values] *)
Definition setitem (name : string) (values : list cell) (df : DataFrame) : DataFrame :=
  match get_loc name (columns df) with
  | Some i =>
      {| columns := columns df;
         rows := zip_with (fun r v => <[i:=v]> r) (rows df) values |}
  | None =>
      {| columns := columns df ++ [name];
         rows := zip_with (fun r v => r ++ [v]) (rows df) values |}
  end.

(** One value under [pd.to_datetime(_, format='ISO8601')]. *)
Definition parse_iso8601 (c : cell) : Exn + cell :=
  match c with
  | IsoText t => inr (Stamp t)
  | Stamp t => inr (Stamp t)
  | Text _ => inl ValueError
  end.

(** [pd.to_datetime(series, format='ISO8601')]: the first value that does
    not parse raises. *)
Fixpoint to_datetime (series : list cell) : Exn + list cell :=
  match series with
  | [] => inr []
  | c :: cs =>
      match parse_iso8601 c with
      | inl e => inl e
      | inr c' =>
          match to_datetime cs with
          | inl e => inl e
          | inr cs' => inr (c' :: cs')
          end
      end
  end.

(** [series.iloc[-k]] for [k > 0]: out of bounds raises [IndexError]. *)
Definition iloc_from_end (k : nat) (series : list cell) : Exn + cell :=
  if decide (k <= length series)%nat
  then match series !! (length series - k)%nat with
       | Some c => inr c
       | None => inl IndexError
       end
  else inl IndexError.

(** [df.iloc[:-1]] *)
Definition iloc_drop_last (df : DataFrame) : DataFrame :=
  {| columns := columns df; rows := take (length (rows df) - 1) (rows df) |}.

(** [df.size] *)
Definition df_size (df : DataFrame) : nat := (length (rows df) * length (columns df))%nat.

(** [value.isoformat()]: timestamps have the method, strings do not. *)
Definition isoformat (c : cell) : Exn + datetime :=
  match c with
  | Stamp t => inr t
  | IsoText _ | Text _ => inl AttributeError
  end.

(** [datetime.fromisoformat] on the string that renders [t]. *)
Definition fromisoformat (s : datetime) : datetime := s.

(** What a CSV file holds of a frame: text only. *)
Definition render_cell (c : cell) : cell :=
  match c with
  | Stamp t => IsoText t
  | _ => c
  end.

Definition render (df : DataFrame) : DataFrame :=
  {| columns := columns df; rows := map (map render_cell) (rows df) |}.

(** [file_name.is_file()] *)
Definition is_file (file_name : string) : M bool :=
  fun w => (Ok (bool_decide (is_Some (files w !! file_name))), w).

(** [pd.read_csv(file_name)] *)
Definition read_csv (file_name : string) : M DataFrame :=
  emit (ReadCsv file_name) ;;
  fun w =>
    match files w !! file_name with
    | Some df => (Ok df, w)
    | None => (Raise FileNotFoundError, w)
    end.

(** [df.to_csv(file_name)] *)
Definition to_csv (df : DataFrame) (file_name : string) : M unit :=
  emit (ToCsv file_name df) ;;
  fun w =>
    (Ok tt, {| files := <[file_name := render df]> (files w);
               ticks := ticks w; trace := trace w |}).

(** ** The script *)

Record DataSource := {
  ds_folder : option string;
  ds_type : option string;
  ds_file : option string
}.

(** The keys of the configuration the script reads; ["logging"]["path"] is
    optional. *)
Record Config := {
  time_column : string;
  data_folder : string;
  freq : string;
  api_key : string;
  api_secret : string;
  logging_path : option string;
  data_sources : list DataSource
}.

(** [timedelta(days=365)] *)
Definition one_year : timedelta := days 365.

(** [data_path / quote] *)
Definition path_join (p q : string) : string := p +:+ "/" +:+ q.

(** [path.with_suffix(suffix)], for a path given without a suffix. *)
Definition with_suffix (p suffix : string) : string := p +:+ suffix.

(** Line 118 of [main]:
    [df[time_column] = pd.to_datetime(df[time_column], format='ISO8601')]. *)
Definition parse_time_column (time_column : string) (df : DataFrame)
  : Exn + DataFrame :=
  match getitem time_column df with
  | inl e => inl e
  | inr series =>
      match to_datetime series with
      | inl e => inl e
      | inr parsed => inr (setitem time_column parsed df)
      end
  end.

(** Line 121 of [main]: [df["timestamp"].iloc[-5]]. *)
Definition oldest_point_of (df : DataFrame) : Exn + cell :=
  match getitem "timestamp" df with
  | inl e => inl e
  | inr timestamps => iloc_from_end 5 timestamps
  end.

(** Lines 117-121 of [main], after [read_csv]: the frame with its time
    column parsed, and the point to resume from. *)
Definition load_existing (time_column : string) (df : DataFrame)
  : Exn + (DataFrame * cell) :=
  match parse_time_column time_column df with
  | inl e => inl e
  | inr df =>
      match oldest_point_of df with
      | inl e => inl e
      | inr oldest_point => inr (df, oldest_point)
      end
  end.

Section Script.

(** The readings of [datetime.now()], in the order they are taken. *)
Variable clock : nat -> datetime.

(** [App.client] *)
Variable client : Client.

(** [klines_to_df] of [common.utils], imported by the script. *)
Variable klines_to_df : list Kline -> DataFrame -> DataFrame.

Definition datetime_now : M datetime :=
  fun w => (Ok (clock (ticks w)),
            {| files := files w; ticks := S (ticks w); trace := trace w |}).

Definition client_get_klines (symbol interval : string) (limit : Z)
  : M (list Kline) :=
  emit (CallGetKlines symbol interval limit) ;;
  lift (get_klines client symbol interval limit).

Definition client_get_historical_klines (r : Request) : M (list Kline) :=
  emit (CallGetHistoricalKlines r) ;;
  lift (get_historical_klines client r).

(** The [while (more_data_to_fetch)] loop of
    [get_binance_historical_klines]; [start_point_dt] and [df] are the
    variables it updates, [more_data_to_fetch] is [true] exactly when
    [end_dt] is set. *)
Fixpoint while_more_data_to_fetch (fuel : nat) (now : datetime)
    (symbol interval : string) (start_str : datetime)
    (klines_type : HistoricalKlinesType)
    (start_point_dt : datetime) (df : DataFrame) : M DataFrame :=
  match fuel with
  | O => out_of_fuel
  | S fuel =>
      let difference := now - start_point_dt in
      let end_dt :=
        if decide (one_year < difference)
        then Some (start_point_dt + one_year)
        else None in
      logger_info (Fetching start_point_dt end_dt) ;;
      klines <- client_get_historical_klines
                  {| req_symbol := symbol;
                     req_interval := interval;
                     req_start_str := start_str;
                     req_end_str := end_dt;
                     req_klines_type := klines_type |} ;;
      let df := klines_to_df klines df in
      logger_info (OverallRows (df_size df)) ;;
      match end_dt with
      | Some end_dt =>
          while_more_data_to_fetch fuel now symbol interval start_str
            klines_type (end_dt - days 1) df
      | None => ret df
      end
  end.

Definition get_binance_historical_klines (fuel : nat)
    (symbol interval : string) (start_str : datetime)
    (klines_type : HistoricalKlinesType) (df : DataFrame)
    (file_name : string) : M unit :=
  now <- datetime_now ;;
  let start_point_dt := fromisoformat start_str in
  df <- while_more_data_to_fetch fuel now symbol interval start_str
          klines_type start_point_dt df ;;
  let df := iloc_drop_last df in
  to_csv df file_name ;;
  logger_info (FinishedSymbol symbol file_name).

(** Lines 108-123 of [main]: the frame to extend and the point to resume
    from ([oldest_point]). *)
Definition load_or_create (cfg : Config) (quote binance_freq : string)
    (latest_ts : datetime) (file_name : string) : M (DataFrame * cell) :=
  found <- is_file file_name ;;
  if negb found then
    logger_info (FileNotFound quote binance_freq) ;;
    ret (empty_frame, Stamp datetime_2017_01_01)
  else
    df <- read_csv file_name ;;
    loaded <- lift (load_existing (time_column cfg) df) ;;
    logger_info (FileFound quote binance_freq latest_ts file_name) ;;
    ret loaded.

(** The body of [for ds in data_sources]; [df_var] is the binding of the
    variable [df] of [main] before and after the iteration. *)
Definition download (fuel : nat) (cfg : Config) (binance_freq : string)
    (ds : DataSource) (df_var : option DataFrame) : M (option DataFrame) :=
  let quote := default "" (ds_folder ds) in
  if decide (quote = "") then
    logger_error FolderNotSpecified ;;
    ret df_var
  else
    let config_data_source_type := default "spot" (ds_type ds) in
    let data_source_type :=
      if decide (config_data_source_type = "futures") then FUTURES else SPOT in
    logger_info (StartDownloading quote config_data_source_type) ;;
    let file_path := path_join (data_folder cfg) quote in
    emit (Mkdir file_path) ;;
    file_name <- match ds_file ds with
                 | Some f => ret (with_suffix f ".csv")
                 | None => raise AttributeError
                 end ;;
    latest_klines <- client_get_klines quote binance_freq 5 ;;
    latest_ts <- match last latest_klines with
                 | Some k => ret (of_millis (open_time k))
                 | None => raise IndexError
                 end ;;
    loaded <- load_or_create cfg quote binance_freq latest_ts file_name ;;
    let df := fst loaded in
    let oldest_point := snd loaded in
    start_str <- lift (isoformat oldest_point) ;;
    get_binance_historical_klines fuel quote binance_freq start_str
      data_source_type df file_name ;;
    ret (Some df).

Fixpoint for_data_sources (fuel : nat) (cfg : Config) (binance_freq : string)
    (dss : list DataSource) (df_var : option DataFrame) : M (option DataFrame) :=
  match dss with
  | [] => ret df_var
  | ds :: dss =>
      df_var <- download fuel cfg binance_freq ds df_var ;;
      for_data_sources fuel cfg binance_freq dss df_var
  end.

End Script.

Section Main.

Variable clock : nat -> datetime.

(** [Client(api_key=..., api_secret=...)] of [binance.client]: the client
    that [App.client] is bound to, or the exception the constructor
    raises. *)
Variable new_client : string -> string -> Exn + Client.

(** [common.utils], imported by the script. *)
Variable klines_to_df : list Kline -> DataFrame -> DataFrame.
Variable binance_freq_from_pandas : string -> string.

(** [main]; [cfg] is the configuration that [load_config(config_file)]
    leaves in [App.config]. *)
Definition main (fuel : nat) (cfg : Config) : M DataFrame :=
  emit LoadConfig ;;
  let logs_folder := default "./logs" (logging_path cfg) in
  emit (Makedirs logs_folder) ;;
  let logs_path := path_join logs_folder "download_binance.log" in
  emit (AddFileHandler logs_path) ;;
  logger_info LoadingConfigurations ;;
  now <- datetime_now clock ;;
  let pandas_freq := freq cfg in
  let binance_freq := binance_freq_from_pandas pandas_freq in
  client <- (emit (NewClient (api_key cfg) (api_secret cfg)) ;;
             lift (new_client (api_key cfg) (api_secret cfg))) ;;
  logger_info (StartingDownload pandas_freq binance_freq (data_folder cfg)) ;;
  df_var <- for_data_sources clock client klines_to_df fuel cfg binance_freq
              (data_sources cfg) None ;;
  now' <- datetime_now clock ;;
  logger_info (FinishedDownloading (now' - now)) ;;
  match df_var with
  | Some df => ret df
  | None => raise UnboundLocalError
  end.

End Main.

(** ** Reading a trace *)

(** The world after some more events. *)
Definition logged (evs : list Event) (w : World) : World :=
  {| files := files w; ticks := ticks w; trace := trace w ++ evs |}.

(** The windows the loop announces ("Fetching data since ... until ..."),
    in order; an open end is [None]. *)
Definition window_of (e : Event) : option (datetime * option datetime) :=
  match e with
  | Info (Fetching since until) => Some (since, until)
  | _ => None
  end.

Definition windows_of (tr : list Event) : list (datetime * option datetime) :=
  omap window_of tr.

(** The range requests sent to the exchange, in order. *)
Definition request_of (e : Event) : option Request :=
  match e with
  | CallGetHistoricalKlines r => Some r
  | _ => None
  end.

Definition requests_of (tr : list Event) : list Request := omap request_of tr.

(** The tables written, in order. *)
Definition write_of (e : Event) : option (string * DataFrame) :=
  match e with
  | ToCsv file_name df => Some (file_name, df)
  | _ => None
  end.

Definition writes_of (tr : list Event) : list (string * DataFrame) :=
  omap write_of tr.

(** Iterations that are always enough for the loop started at
    [start_point_dt]: the cursor moves by 364 days per iteration. *)
Definition fuel_for (now start_point_dt : datetime) : nat :=
  S (Z.to_nat ((now - start_point_dt) / days 364)).

(** ** The merge, from its contract *)

Module SeriesMerger.

Section Merge.

Context {Row : Type}.
Variable timestamp : Row -> Z.

(** Modelled from the spec: [klines_to_df] of [common.utils] is not part
    of the script.  The contract of the merger (spec 4.3) asks that a row
    of the batch replaces the row of the table with the same timestamp
    and that the table stays strictly ordered by timestamp; a row with a
    new timestamp takes its place in that order. *)
Fixpoint upsert (b : Row) (table : list Row) : list Row :=
  match table with
  | [] => [b]
  | r :: rest =>
      if decide (timestamp b < timestamp r) then b :: r :: rest
      else if decide (timestamp b = timestamp r) then b :: rest
      else r :: upsert b rest
  end.

(** Modelled from the spec: [klines_to_df] of [common.utils] is not part
    of the script.  The batch is merged row by row, in the order it was
    fetched (spec 4.3: "merges freshly fetched rows into an existing
    table, deduplicating by timestamp"). *)
Definition merge (table batch : list Row) : list Row :=
  foldl (fun t b => upsert b t) table batch.

(** Modelled from the spec: the row a table holds at a timestamp, the key
    of a series table (spec 3, "indexed by timestamp"). *)
Fixpoint row_at (t : Z) (table : list Row) : option Row :=
  match table with
  | [] => None
  | r :: rest => if decide (timestamp r = t) then Some r else row_at t rest
  end.

(** Modelled from the spec: the invariant of a series table (spec 3),
    "timestamps strictly increasing, no duplicates". *)
Definition strictly_ordered (table : list Row) : Prop :=
  StronglySorted (fun r s => timestamp r < timestamp s) table.

End Merge.

(** Modelled from the spec: the timestamp of a bar record (spec 3), for a
    row in the layout of a kline, where the open time comes first. *)
Definition bar_time (r : list cell) : Z :=
  match r with
  | Stamp t :: _ | IsoText t :: _ => t
  | _ => 0
  end.

(** Modelled from the spec: a fetched kline as a row of the table, the open
    time as a timestamp, then the entries. *)
Definition kline_row (k : Kline) : list cell :=
  Stamp (of_millis (open_time k)) :: (Text <$> entries k).

(** Modelled from the spec: the columns of a bar record (spec 3); the time
    column has the name [main] reads the resume point from. *)
Definition kline_columns : list string :=
  ["timestamp"; "open"; "high"; "low"; "close"; "volume"].

(** Modelled from the spec: [klines_to_df] of [common.utils] is not part
    of the script.  The fetched klines, as rows in kline layout, are merged
    into the rows of the frame; a frame without columns gets those of the
    klines. *)
Definition klines_to_df (klines : list Kline) (df : DataFrame) : DataFrame :=
  {| columns := match columns df with [] => kline_columns | cs => cs end;
     rows := merge bar_time (rows df) (kline_row <$> klines) |}.

End SeriesMerger.

(** A computation that never touches the files, and one that touches them
    only when it returns normally. *)
Definition writes_nothing {A} (m : M A) : Prop :=
  forall w o w', m w = (o, w') ->
    files w' = files w /\ writes_of (trace w') = writes_of (trace w).

Definition writes_only_on_success {A} (m : M A) : Prop :=
  forall w o w', m w = (o, w') -> (forall a, o <> Ok a) ->
    files w' = files w /\ writes_of (trace w') = writes_of (trace w).

(** The windows of the loop computed on their own: what the loop announces
    when no remote call fails (lemma [loop_run] below). *)
Fixpoint plan (fuel : nat) (now start_point_dt : datetime)
  : list (datetime * option datetime) :=
  match fuel with
  | O => []
  | S fuel =>
      if decide (one_year < now - start_point_dt)
      then (start_point_dt, Some (start_point_dt + one_year))
             :: plan fuel now (start_point_dt + one_year - days 1)
      else [(start_point_dt, None)]
  end.

(** The request the loop sends for a window ending at [until]. *)
Definition request_until (symbol interval : string) (start_str : datetime)
    (klines_type : HistoricalKlinesType) (until : option datetime) : Request :=
  {| req_symbol := symbol;
     req_interval := interval;
     req_start_str := start_str;
     req_end_str := until;
     req_klines_type := klines_type |}.

(** The shape of a complete window sequence from [cursor]: every bounded
    window spans one year and is followed by a window that starts one day
    before its end; the sequence ends with the one open-ended window, which
    starts at most a year before [now]. *)
Fixpoint chained (now cursor : datetime) (ws : list (datetime * option datetime))
  : Prop :=
  match ws with
  | [] => False
  | (s, None) :: rest => s = cursor /\ now - s <= one_year /\ rest = []
  | (s, Some e) :: rest =>
      s = cursor /\ one_year < now - s /\ e = s + one_year /\
      chained now (e - days 1) rest
  end.

(** ** Sample data

    A small world used to run the script on concrete inputs. *)

Module Sample.

(** A clock stopped on 2018-12-01. *)
Definition clock (_ : nat) : datetime := days 17866.

Definition bar (day : Z) (close : string) : Kline :=
  {| open_time := day * 86400000;
     entries := [close; close; close; close; "1.0"] |}.

(** An exchange that answers every request with the same two bars. *)
Definition client : Client :=
  {| get_klines := fun _ _ _ => inr [bar 17865 "4100.5"];
     get_historical_klines := fun _ => inr [bar 17864 "4005.0"; bar 17865 "4100.5"] |}.

Definition world : World := {| files := ∅; ticks := 0; trace := [] |}.

(** The loop started on 2017-01-01 with an empty frame. *)
Definition loop_run : Outcome DataFrame * World :=
  while_more_data_to_fetch client SeriesMerger.klines_to_df 2 (days 17866)
    "BTCUSDT" "1m" datetime_2017_01_01 SPOT datetime_2017_01_01 empty_frame world.

Definition loop_frame : DataFrame :=
  match loop_run.1 with Ok df => df | _ => empty_frame end.

(** The same loop as a job runs it, after its reading of the clock. *)
Definition ticked : World := {| files := ∅; ticks := 1; trace := [] |}.

Definition job_loop : Outcome DataFrame * World :=
  while_more_data_to_fetch client SeriesMerger.klines_to_df 2 (days 17866)
    "BTCUSDT" "1m" datetime_2017_01_01 SPOT datetime_2017_01_01 empty_frame ticked.

Definition job_frame : DataFrame :=
  match job_loop.1 with Ok df => df | _ => empty_frame end.

(** The configuration. *)
Definition binance_freq_from_pandas (_ : string) : string := "1m".

Definition btc : DataSource :=
  {| ds_folder := Some "BTCUSDT"; ds_type := None;
     ds_file := Some "BTCUSDT/klines" |}.

Definition eth : DataSource :=
  {| ds_folder := Some "ETHUSDT"; ds_type := Some "futures";
     ds_file := Some "ETHUSDT/klines" |}.

Definition cfg (dss : list DataSource) : Config :=
  {| time_column := "timestamp"; data_folder := "DATA"; freq := "1min";
     api_key := "key"; api_secret := "secret"; logging_path := None;
     data_sources := dss |}.

(** Daily bars, [n] of them from day [first]. *)
Definition bars (first n : Z) : list Kline :=
  (fun day => bar day "4005.0") <$> seqZ first n.

(** The file of a table of klines. *)
Definition stored (klines : list Kline) : DataFrame :=
  render {| columns := SeriesMerger.kline_columns;
            rows := SeriesMerger.kline_row <$> klines |}.

Definition world_with (klines : list Kline) : World :=
  {| files := {[ "BTCUSDT/klines.csv" := stored klines ]};
     ticks := 0; trace := [] |}.

(** An exchange that refuses the range requests for BTCUSDT. *)
Definition failing_client : Client :=
  {| get_klines := fun _ _ _ => inr [bar 17865 "4100.5"];
     get_historical_klines := fun r =>
       if decide (req_symbol r = "BTCUSDT")
       then inl (BinanceAPIException (-1003))
       else inr [bar 17864 "4005.0"; bar 17865 "4100.5"] |}.

(** An exchange with no bar in any requested range. *)
Definition silent_client : Client :=
  {| get_klines := fun _ _ _ => inr [bar 17865 "4100.5"];
     get_historical_klines := fun _ => inr [] |}.

(** A constructor that returns the client [c]. *)
Definition connect (c : Client) : string -> string -> Exn + Client :=
  fun _ _ => inr c.

(** Two runs in a row over a file of seven rows, the exchange silent. *)
Definition first_run : Outcome DataFrame * World :=
  main clock (connect silent_client) SeriesMerger.klines_to_df
    binance_freq_from_pandas
    1 (cfg [btc]) (world_with (bars 17859 7)).

Definition second_run : Outcome DataFrame * World :=
  main clock (connect silent_client) SeriesMerger.klines_to_df
    binance_freq_from_pandas
    1 (cfg [btc]) first_run.2.

(** A run over two data sources, the first one refused. *)
Definition refused_run : Outcome DataFrame * World :=
  main clock (connect failing_client) SeriesMerger.klines_to_df
    binance_freq_from_pandas
    2 (cfg [btc; eth]) world.

Definition eth_alone_run : Outcome DataFrame * World :=
  main clock (connect failing_client) SeriesMerger.klines_to_df
    binance_freq_from_pandas
    2 (cfg [eth]) world.

Definition refused_download : Outcome (option DataFrame) * World :=
  download clock failing_client SeriesMerger.klines_to_df 2 (cfg [btc; eth])
    "1m" btc None world.

(** A file with a time column named ["time"] and no column
    ["timestamp"]. *)
Definition other_time_column : DataFrame :=
  {| columns := ["time"; "close"];
     rows := [[IsoText (days 17864); Text "4005.0"];
              [IsoText (days 17865); Text "4100.5"]] |}.

(** A file with a time column named ["time"] and a column ["timestamp"]
    as well. *)
Definition both_columns : DataFrame :=
  {| columns := ["time"; "timestamp"; "close"];
     rows := (fun day => [IsoText (days day); IsoText (days day); Text "4005.0"])
               <$> seqZ 17860 6 |}.

(** A small table keyed by day. *)
Definition table : list (Z * string) :=
  [(17862, "a"); (17863, "b"); (17864, "c")].
Definition batch : list (Z * string) :=
  [(17864, "C"); (17865, "D")].

End Sample.

(** ** What a computation may do

    Two ways to bound the effects of a computation, whatever its outcome:
    by the files it may change, and by the events it may add to the
    trace. *)


(** Every event added to the trace satisfies [Q]. *)
Definition emits (Q : Event -> Prop) {A} (m : M A) : Prop :=
  forall w o w', m w = (o, w') ->
    exists evs, trace w' = trace w ++ evs /\ Forall Q evs.


(** The klines type [main] selects for a data source (lines 92-95). *)
Definition klines_type_of (ds : DataSource) : HistoricalKlinesType :=
  if decide (default "spot" (ds_type ds) = "futures") then FUTURES else SPOT.

(** What [main] lets a range request of a data source look like. *)
Definition request_of_source (binance_freq : string) (ds : DataSource)
    (e : Event) : Prop :=
  match e with
  | CallGetHistoricalKlines r =>
      req_symbol r = default "" (ds_folder ds) /\
      req_interval r = binance_freq /\
      req_klines_type r = klines_type_of ds
  | _ => True
  end.


(** ** More sample data *)

Module Cases.

(** Data sources without a usable folder. *)
Definition unnamed : DataSource :=
  {| ds_folder := None; ds_type := None; ds_file := Some "BTCUSDT/klines" |}.

Definition blank : DataSource :=
  {| ds_folder := Some ""; ds_type := Some "futures"; ds_file := None |}.

(** A data source without a file entry. *)
Definition fileless : DataSource :=
  {| ds_folder := Some "BTCUSDT"; ds_type := None; ds_file := None |}.

(** An exchange whose recent klines are empty. *)
Definition mute_client : Client :=
  {| get_klines := fun _ _ _ => inr [];
     get_historical_klines := fun _ => inr [] |}.

(** A file whose time column does not parse. *)
Definition garbled : DataFrame :=
  {| columns := ["timestamp"; "close"];
     rows := [[Text "yesterday"; Text "4005.0"]] |}.

Definition world_garbled : World :=
  {| files := {[ "BTCUSDT/klines.csv" := garbled ]}; ticks := 0; trace := [] |}.

(** A configuration whose time column is ["time"], over a file that has a
    column ["timestamp"] as well. *)
Definition cfg_time : Config :=
  {| time_column := "time"; data_folder := "DATA"; freq := "1min";
     api_key := "key"; api_secret := "secret"; logging_path := None;
     data_sources := [Sample.btc] |}.

Definition world_time : World :=
  {| files := {[ "BTCUSDT/klines.csv" := Sample.both_columns ]};
     ticks := 0; trace := [] |}.


(** An exchange that cannot be reached. *)
Definition down_client : Client :=
  {| get_klines := fun _ _ _ => inl (BinanceAPIException (-1001));
     get_historical_klines := fun _ => inl (BinanceAPIException (-1001)) |}.

(** The loop from 2017-01-01 against an exchange that refuses BTCUSDT. *)
Definition broken_loop : Outcome DataFrame * World :=
  while_more_data_to_fetch Sample.failing_client SeriesMerger.klines_to_df 2
    (days 17866) "BTCUSDT" "1m" datetime_2017_01_01 SPOT datetime_2017_01_01
    empty_frame Sample.world.

(** A constructor that cannot reach the exchange. *)
Definition no_connection : string -> string -> Exn + Client :=
  fun _ _ => inl (BinanceAPIException (-1001)).


End Cases.

(** * Properties *)

(** ** The monad *)

Lemma bind_ok {A B} (m : M A) (k : A -> M B) w a w1 :
  m w = (Ok a, w1) -> bind m k w = k a w1.
Proof. unfold bind. intros ->. reflexivity. Qed.

Lemma bind_raise {A B} (m : M A) (k : A -> M B) w e w1 :
  m w = (Raise e, w1) -> bind m k w = (Raise e, w1).
Proof. unfold bind. intros ->. reflexivity. Qed.

Lemma bind_out_of_fuel {A B} (m : M A) (k : A -> M B) w w1 :
  m w = (OutOfFuel, w1) -> bind m k w = (OutOfFuel, w1).
Proof. unfold bind. intros ->. reflexivity. Qed.

Lemma windows_of_app tr1 tr2 :
  windows_of (tr1 ++ tr2) = windows_of tr1 ++ windows_of tr2.
Proof. apply omap_app. Qed.

Lemma requests_of_app tr1 tr2 :
  requests_of (tr1 ++ tr2) = requests_of tr1 ++ requests_of tr2.
Proof. apply omap_app. Qed.

Lemma writes_of_app tr1 tr2 :
  writes_of (tr1 ++ tr2) = writes_of tr1 ++ writes_of tr2.
Proof. apply omap_app. Qed.

(** ** Frames *)

Lemma to_datetime_length series :
  forall parsed, to_datetime series = inr parsed -> length parsed = length series.
Proof.
  induction series as [|c cs IH]; intros parsed; cbn.
  - intros [= <-]. reflexivity.
  - destruct (parse_iso8601 c); [discriminate|].
    destruct (to_datetime cs); [discriminate|].
    intros [= <-]. cbn. f_equal. apply IH. reflexivity.
Qed.

Lemma get_loc_lookup name cols :
  forall i, get_loc name cols = Some i -> cols !! i = Some name.
Proof.
  induction cols as [|c cs IH]; intros i; cbn; [discriminate|].
  destruct (decide (c = name)) as [->|_].
  - intros [= <-]. reflexivity.
  - destruct (get_loc name cs); cbn; [|discriminate].
    intros [= <-]. cbn. apply IH. reflexivity.
Qed.

Lemma getitem_length name df series :
  getitem name df = inr series -> length series = length (rows df).
Proof.
  unfold getitem. destruct (get_loc _ _); [|discriminate].
  intros [= <-]. apply length_fmap.
Qed.

Lemma cell_at_insert_ne i j v r : i <> j -> cell_at j (<[i:=v]> r) = cell_at j r.
Proof. intros H. unfold cell_at. rewrite list_lookup_insert_ne by exact H. reflexivity. Qed.

Lemma column_after_insert_ne i j rs :
  forall values,
    i <> j -> length values = length rs ->
    cell_at j <$> zip_with (fun r v => <[i:=v]> r) rs values = cell_at j <$> rs.
Proof.
  induction rs as [|r rs IH]; intros [|v values] Hne Hlen; cbn in *; try done.
  rewrite cell_at_insert_ne by exact Hne. f_equal. apply IH; [exact Hne|lia].
Qed.

(** Parsing the time column keeps the columns and the number of rows. *)
Lemma parse_time_column_shape time_column df0 df :
  parse_time_column time_column df0 = inr df ->
  columns df = columns df0 /\ length (rows df) = length (rows df0).
Proof.
  unfold parse_time_column.
  destruct (getitem time_column df0) as [|series] eqn:Hget; [discriminate|].
  destruct (to_datetime series) as [|parsed] eqn:Hparse; [discriminate|].
  intros [= <-]. apply to_datetime_length in Hparse.
  pose proof (getitem_length _ _ _ Hget) as Hlen.
  unfold getitem in Hget. unfold setitem.
  destruct (get_loc time_column (columns df0)); [|discriminate].
  cbn. split; [reflexivity|]. rewrite length_zip_with. lia.
Qed.

(** Parsing the time column leaves every other column as it was read. *)
Lemma parse_time_column_other time_column other df0 df :
  time_column <> other ->
  parse_time_column time_column df0 = inr df ->
  getitem other df = getitem other df0.
Proof.
  unfold parse_time_column. intros Hne.
  destruct (getitem time_column df0) as [|series] eqn:Hget; [discriminate|].
  destruct (to_datetime series) as [|parsed] eqn:Hparse; [discriminate|].
  intros [= <-]. apply to_datetime_length in Hparse.
  pose proof (getitem_length _ _ _ Hget) as Hlen.
  unfold getitem in *. unfold setitem.
  destruct (get_loc time_column (columns df0)) as [i|] eqn:Hi; [|discriminate].
  cbn. destruct (get_loc other (columns df0)) as [j|] eqn:Hj; [|reflexivity].
  f_equal. apply column_after_insert_ne; [|lia].
  intros ->. apply get_loc_lookup in Hi, Hj. congruence.
Qed.

Lemma iloc_from_end_short k series :
  (length series < k)%nat -> iloc_from_end k series = inl IndexError.
Proof. intros H. unfold iloc_from_end. destruct (decide _); [lia|reflexivity]. Qed.

Lemma iloc_from_end_long k series :
  (0 < k <= length series)%nat ->
  exists c, series !! (length series - k)%nat = Some c /\
            iloc_from_end k series = inr c.
Proof.
  intros H. unfold iloc_from_end. destruct (decide _); [|lia].
  destruct (lookup_lt_is_Some_2 series (length series - k)%nat) as [c Hc]; [lia|].
  exists c. rewrite Hc. done.
Qed.

(** ** The planner *)

Lemma fuel_for_step now start_point_dt :
  one_year < now - start_point_dt ->
  fuel_for now start_point_dt
  = S (fuel_for now (start_point_dt + one_year - days 1)).
Proof.
  unfold fuel_for, one_year, days. intros H. f_equal.
  replace (now - (start_point_dt + 365 * 86400000000 - 1 * 86400000000))
    with ((now - start_point_dt) + (-1) * (364 * 86400000000)) by lia.
  rewrite Z.div_add by lia.
  assert (1 <= (now - start_point_dt) / (364 * 86400000000)).
  { apply Z.div_le_lower_bound; lia. }
  rewrite <- Z2Nat.inj_succ by lia. f_equal. lia.
Qed.

Lemma plan_length fuel now :
  forall start_point_dt,
    (length (plan fuel now start_point_dt) <= fuel_for now start_point_dt)%nat.
Proof.
  induction fuel as [|fuel IH]; intros start_point_dt; cbn; [lia|].
  destruct (decide _) as [Hgt|Hle]; cbn.
  - rewrite (fuel_for_step _ _ Hgt). specialize (IH (start_point_dt + one_year - days 1)). lia.
  - unfold fuel_for. lia.
Qed.

(** Two windows in a row: the first is bounded, so more than a year was
    left, and the second starts 364 days after the first. *)
Lemma plan_lookup_succ fuel now :
  forall start_point_dt i s e s' e',
    plan fuel now start_point_dt !! i = Some (s, e) ->
    plan fuel now start_point_dt !! S i = Some (s', e') ->
    one_year < now - s /\ e = Some (s + one_year) /\ s' = s + one_year - days 1.
Proof.
  induction fuel as [|fuel IH]; intros start_point_dt i s e s' e'; cbn; [done|].
  destruct (decide _) as [Hgt|Hle]; [|destruct i; cbn; done].
  destruct i as [|i]; cbn.
  - intros [= <- <-] Hnext. repeat split; trivial.
    destruct fuel; cbn in Hnext; [done|].
    destruct (decide _); cbn in Hnext; congruence.
  - apply IH.
Qed.

(** The [i]-th window starts 364 days after the one before; it is
    bounded exactly when more than a year is left from its start. *)
Lemma plan_lookup_window fuel now :
  forall start_point_dt i s e,
    plan fuel now start_point_dt !! i = Some (s, e) ->
    s = start_point_dt + Z.of_nat i * days 364 /\
    e = if decide (one_year < now - s) then Some (s + one_year) else None.
Proof.
  induction fuel as [|fuel IH]; intros start_point_dt i s e; cbn; [done|].
  destruct (decide (one_year < now - start_point_dt)) as [Hgt|Hle].
  - destruct i as [|i]; cbn.
    + intros [= <- <-]. split; [lia|]. rewrite decide_True by exact Hgt. reflexivity.
    + intros Hi. apply IH in Hi as [Hs He]. split; [|exact He].
      rewrite Hs. unfold one_year, days. lia.
  - destruct i as [|i]; cbn; [|done].
    intros [= <- <-]. split; [lia|]. rewrite decide_False by exact Hle. reflexivity.
Qed.

Lemma plan_single fuel now start_point_dt :
  now - start_point_dt <= one_year ->
  plan (S fuel) now start_point_dt = [(start_point_dt, None)].
Proof. intros H. cbn. destruct (decide _); [lia|reflexivity]. Qed.

Lemma chained_head now ws :
  forall cursor, chained now cursor ws -> exists e, ws !! 0%nat = Some (cursor, e).
Proof.
  destruct ws as [|[s [e|]] rest]; cbn; intros cursor H; [done| |];
    destruct H as (-> & _); eauto.
Qed.

Lemma chained_last now ws :
  forall cursor, chained now cursor ws ->
    exists s, last ws = Some (s, None) /\ now - s <= one_year.
Proof.
  induction ws as [|[s [e|]] rest IH]; intros cursor H; cbn in H; [done| |].
  - destruct H as (_ & _ & _ & H). destruct (IH _ H) as (s' & Hlast & Hle).
    exists s'. split; [|exact Hle].
    destruct rest; [discriminate|]. exact Hlast.
  - destruct H as (_ & Hle & ->). exists s. split; [reflexivity|exact Hle].
Qed.

Lemma chained_bounded now ws :
  forall cursor i s e, chained now cursor ws ->
    ws !! i = Some (s, Some e) ->
    e = s + one_year /\ exists e', ws !! S i = Some (e - days 1, e').
Proof.
  induction ws as [|[s0 [e0|]] rest IH]; intros cursor i s e H Hi; cbn in H; [done| |].
  - destruct H as (_ & _ & -> & H). destruct i as [|i]; cbn in *.
    + injection Hi as <- <-. split; [reflexivity|]. eapply chained_head, H.
    + eapply IH; eauto.
  - destruct H as (_ & _ & ->). destruct i; cbn in Hi; done.
Qed.

Lemma chained_open now ws :
  forall cursor i s, chained now cursor ws ->
    ws !! i = Some (s, None) -> S i = length ws.
Proof.
  induction ws as [|[s0 [e0|]] rest IH]; intros cursor i s H Hi; cbn in H; [done| |].
  - destruct H as (_ & _ & _ & H). destruct i as [|i]; cbn in *; [done|].
    f_equal. eapply IH; eauto.
  - destruct H as (_ & _ & ->). destruct i as [|i]; cbn in *; done.
Qed.

Lemma last_of_lookup {A} (l : list A) i x :
  l !! i = Some x -> l !! S i = None -> last l = Some x.
Proof.
  intros Hi HSi. rewrite last_lookup.
  apply lookup_lt_Some in Hi as Hlt. apply lookup_ge_None in HSi.
  replace (pred (length l)) with i by lia. exact Hi.
Qed.

(** ** The fetch loop *)

Section LoopFacts.

Variable client : Client.
Variable klines_to_df : list Kline -> DataFrame -> DataFrame.

Local Abbreviation loop := (while_more_data_to_fetch client klines_to_df).

(** What one run of the loop leaves in the world, whatever its outcome. *)
Lemma loop_run fuel now symbol interval start_str klines_type :
  forall start_point_dt df w o w',
    loop fuel now symbol interval start_str klines_type start_point_dt df w
    = (o, w') ->
    files w' = files w /\ ticks w' = ticks w /\
    exists evs,
      trace w' = trace w ++ evs /\
      writes_of evs = [] /\
      windows_of evs `prefix_of` plan fuel now start_point_dt /\
      requests_of evs
      = (fun win => request_until symbol interval start_str klines_type (snd win))
          <$> windows_of evs /\
      ((forall e, o <> Raise e) -> windows_of evs = plan fuel now start_point_dt) /\
      (fuel <> O -> exists until rest,
          windows_of evs = (start_point_dt, until) :: rest).
Proof.
  induction fuel as [|fuel IH]; intros start_point_dt df w o w' Hrun.
  - cbn in Hrun. injection Hrun as <- <-.
    repeat split; trivial. exists []. rewrite app_nil_r. repeat split; trivial.
    intros []; reflexivity.
  - cbn [while_more_data_to_fetch plan] in *.
    unfold bind, logger_info, client_get_historical_klines, emit, lift in Hrun.
    cbn in Hrun. fold (request_until symbol interval start_str klines_type) in Hrun.
    destruct (get_historical_klines client _) as [err|klines] eqn:Hcall; cbn in Hrun.
    + injection Hrun as <- <-. cbn. repeat split; trivial.
      eexists. split; [rewrite <- app_assoc; reflexivity|].
      cbn. repeat split; trivial.
      * destruct (decide _); cbn; [apply prefix_cons, prefix_nil | reflexivity].
      * intros He. destruct (He err). reflexivity.
      * intros _. eauto.
    + destruct (decide (one_year < now - start_point_dt)) as [Hgt|Hle]; cbn in Hrun.
      * apply IH in Hrun as (Hf & Ht & evs & Htr & Hw & Hpre & Hreq & Hok & _).
        cbn in Hf, Ht, Htr. repeat split; trivial.
        exists ([Info (Fetching start_point_dt (Some (start_point_dt + one_year)));
                 CallGetHistoricalKlines
                   (request_until symbol interval start_str klines_type
                      (Some (start_point_dt + one_year)));
                 Info (OverallRows (df_size (klines_to_df klines df)))] ++ evs).
        split; [rewrite Htr, <- !app_assoc; reflexivity|].
        rewrite writes_of_app, windows_of_app, requests_of_app, Hw, Hreq.
        repeat split; trivial.
        -- apply prefix_cons, Hpre.
        -- intros He. cbn. f_equal. apply Hok, He.
        -- intros _. cbn. eauto.
      * injection Hrun as <- <-. cbn. repeat split; trivial.
        eexists. split; [rewrite <- !app_assoc; reflexivity|].
        cbn. repeat split; trivial. intros _. eauto.
Qed.

(** With [fuel_for] iterations or more the loop comes to an end. *)
Lemma loop_enough_fuel fuel now symbol interval start_str klines_type :
  forall start_point_dt df w,
    (fuel_for now start_point_dt <= fuel)%nat ->
    (loop fuel now symbol interval start_str klines_type start_point_dt df w).1
    <> OutOfFuel.
Proof.
  induction fuel as [|fuel IH]; intros start_point_dt df w Hfuel.
  - unfold fuel_for in Hfuel. lia.
  - cbn [while_more_data_to_fetch].
    unfold bind, logger_info, client_get_historical_klines, emit, lift. cbn.
    destruct (get_historical_klines client _) as [err|klines]; cbn; [discriminate|].
    destruct (decide (one_year < now - start_point_dt)) as [Hgt|Hle]; cbn;
      [|discriminate].
    apply IH. rewrite (fuel_for_step _ _ Hgt) in Hfuel. lia.
Qed.

(** A run that returns has gone through a complete window sequence. *)
Lemma loop_ok_chained fuel now symbol interval start_str klines_type :
  forall start_point_dt df w df' w',
    loop fuel now symbol interval start_str klines_type start_point_dt df w
    = (Ok df', w') ->
    exists evs,
      trace w' = trace w ++ evs /\ chained now start_point_dt (windows_of evs).
Proof.
  induction fuel as [|fuel IH]; intros start_point_dt df w df' w' Hrun;
    [discriminate|].
  cbn [while_more_data_to_fetch] in Hrun.
  unfold bind, logger_info, client_get_historical_klines, emit, lift in Hrun.
  cbn in Hrun.
  destruct (get_historical_klines client _) as [err|klines]; cbn in Hrun;
    [discriminate|].
  destruct (decide (one_year < now - start_point_dt)) as [Hgt|Hle]; cbn in Hrun.
  - apply IH in Hrun as (evs & Htr & Hch). cbn in Htr.
    eexists (_ :: _ :: _ :: evs).
    split; [rewrite Htr, <- !app_assoc; reflexivity|].
    cbn. auto.
  - injection Hrun as <- <-. eexists [_; _; _].
    split; [cbn; rewrite <- !app_assoc; reflexivity|].
    cbn. split; [reflexivity|]. split; [lia|reflexivity].
Qed.

(** C2, as the loop has it.  The windows announced by a run that returns
    start at the start instant and leave no gap, but they overlap: every
    bounded window spans exactly one year and the next window starts one
    day before its end; the only open-ended window is the last one, which
    starts at most one year before now. *)
Theorem windows_overlap_by_one_day fuel now symbol interval start_str
    klines_type start_point_dt df w df' w' :
  loop fuel now symbol interval start_str klines_type start_point_dt df w
  = (Ok df', w') ->
  exists ws,
    windows_of (trace w') = windows_of (trace w) ++ ws /\
    (exists e, ws !! 0%nat = Some (start_point_dt, e)) /\
    (exists s, last ws = Some (s, None) /\ now - s <= one_year) /\
    (forall i s e, ws !! i = Some (s, Some e) ->
       e = s + one_year /\ exists e', ws !! S i = Some (e - days 1, e')) /\
    (forall i s, ws !! i = Some (s, None) -> S i = length ws).
Proof.
  intros Hrun. apply loop_ok_chained in Hrun as (evs & Htr & Hch).
  exists (windows_of evs). split; [rewrite Htr; apply windows_of_app|].
  split; [eapply chained_head, Hch|].
  split; [eapply chained_last, Hch|].
  split; intros; [eapply chained_bounded|eapply chained_open]; eauto.
Qed.

(** Every request of a run carries the [start_str] the function was
    called with, whatever window it is sent for. *)
Lemma requests_start_at_start_str fuel now symbol interval start_str klines_type
    start_point_dt df w o w' :
  loop fuel now symbol interval start_str klines_type start_point_dt df w
  = (o, w') ->
  exists rs,
    requests_of (trace w') = requests_of (trace w) ++ rs /\
    Forall (fun r => req_start_str r = start_str) rs.
Proof.
  intros Hrun.
  apply loop_run in Hrun as (_ & _ & evs & Htr & _ & _ & Hreq & _).
  exists (requests_of evs). split; [rewrite Htr; apply requests_of_app|].
  rewrite Hreq. apply Forall_fmap, Forall_true. reflexivity.
Qed.

(** A run that raises stopped at the request of the window it announced
    last: the exchange refused that request with the exception raised. *)
Lemma loop_raise_last fuel now symbol interval start_str klines_type :
  forall start_point_dt df w err w',
    loop fuel now symbol interval start_str klines_type start_point_dt df w
    = (Raise err, w') ->
    exists evs s until,
      trace w' = trace w ++ evs /\
      last (windows_of evs) = Some (s, until) /\
      get_historical_klines client
        (request_until symbol interval start_str klines_type until) = inl err.
Proof.
  induction fuel as [|fuel IH]; intros start_point_dt df w err w' Hrun;
    [discriminate|].
  cbn [while_more_data_to_fetch] in Hrun.
  unfold bind, logger_info, client_get_historical_klines, emit, lift in Hrun.
  cbn in Hrun. fold (request_until symbol interval start_str klines_type) in Hrun.
  destruct (get_historical_klines client _) as [err'|klines] eqn:Hcall; cbn in Hrun.
  - injection Hrun as -> <-. eexists [_; _], _, _.
    split; [cbn; rewrite <- app_assoc; reflexivity|].
    cbn. split; [reflexivity|exact Hcall].
  - destruct (decide (one_year < now - start_point_dt)) as [Hgt|Hle]; cbn in Hrun;
      [|discriminate].
    apply IH in Hrun as (evs & s & until & Htr & Hlast & Hfail). cbn in Htr.
    exists ([Info (Fetching start_point_dt (Some (start_point_dt + one_year)));
             CallGetHistoricalKlines
               (request_until symbol interval start_str klines_type
                  (Some (start_point_dt + one_year)));
             Info (OverallRows (df_size (klines_to_df klines df)))] ++ evs), s, until.
    split; [rewrite Htr, <- !app_assoc; reflexivity|].
    split; [|exact Hfail].
    rewrite windows_of_app. cbn.
    destruct (windows_of evs); [discriminate|exact Hlast].
Qed.

(** C8. For every start instant and every now instant, also with the
    start later than now, the fetch loop comes to an end after finitely
    many windows (at most [fuel_for now start]): any supply of iterations
    from [fuel_for] on is never used up.  Every window it announces is
    followed by its request to the exchange.  When [now - start] is at most
    one year, exactly one window is announced and it is open-ended.  When
    more than a year is left, the first window is bounded (one year from
    the start), and so is every window that starts more than a year before
    [now]; after each bounded window whose request the exchange answered,
    the loop goes on with a window that starts 364 days later, strictly
    forward and still before [now].  The loop returns on the open-ended
    window only; it raises only what the exchange raised at the request of
    the last window. *)
Theorem loop_terminates now symbol interval start_str klines_type
    start_point_dt df w extra :
  exists o w' ws,
    loop (fuel_for now start_point_dt + extra) now symbol interval start_str
      klines_type start_point_dt df w = (o, w') /\
    o <> OutOfFuel /\
    windows_of (trace w') = windows_of (trace w) ++ ws /\
    requests_of (trace w')
    = requests_of (trace w)
      ++ ((fun win => request_until symbol interval start_str klines_type (snd win))
            <$> ws) /\
    (0 < length ws <= fuel_for now start_point_dt)%nat /\
    (now - start_point_dt <= one_year -> ws = [(start_point_dt, None)]) /\
    (one_year < now - start_point_dt ->
     exists rest, ws = (start_point_dt, Some (start_point_dt + one_year)) :: rest) /\
    (forall i s e,
        ws !! i = Some (s, e) ->
        s = start_point_dt + Z.of_nat i * days 364 /\
        e = if decide (one_year < now - s) then Some (s + one_year) else None) /\
    (forall i s e s' e',
        ws !! i = Some (s, e) -> ws !! S i = Some (s', e') ->
        one_year < now - s /\ s < s' /\ s' < now) /\
    (forall i s end_dt answer,
        ws !! i = Some (s, Some end_dt) ->
        get_historical_klines client
          (request_until symbol interval start_str klines_type (Some end_dt))
        = inr answer ->
        exists e', ws !! S i = Some (s + days 364, e')) /\
    (forall df', o = Ok df' ->
        exists s, last ws = Some (s, None) /\ now - s <= one_year) /\
    (forall err, o = Raise err ->
        exists s e,
          last ws = Some (s, e) /\
          get_historical_klines client
            (request_until symbol interval start_str klines_type e) = inl err).
Proof.
  destruct (loop _ now symbol interval start_str klines_type start_point_dt df w)
    as [o w'] eqn:Hrun.
  pose proof (loop_enough_fuel (fuel_for now start_point_dt + extra) now symbol
                interval start_str klines_type start_point_dt df w) as Hfuel.
  rewrite Hrun in Hfuel.
  pose proof Hrun as Hrun'.
  apply loop_run in Hrun' as (_ & _ & evs & Htr & _ & Hpre & Hreq & _ & Hfirst).
  destruct Hfirst as (until & rest & Hws); [unfold fuel_for; lia|].
  assert (forall i s e,
             windows_of evs !! i = Some (s, e) ->
             s = start_point_dt + Z.of_nat i * days 364 /\
             e = if decide (one_year < now - s) then Some (s + one_year) else None)
    as Hshape.
  { intros i s e Hi. eapply prefix_lookup_Some in Hi; [|exact Hpre].
    eapply plan_lookup_window, Hi. }
  assert (forall df', o = Ok df' ->
             chained now start_point_dt (windows_of evs)) as Hret.
  { intros df' ->. apply loop_ok_chained in Hrun as (evs' & Htr' & Hch).
    rewrite Htr in Htr'. apply app_inv_head in Htr' as <-. exact Hch. }
  assert (forall err, o = Raise err ->
             exists s e,
               last (windows_of evs) = Some (s, e) /\
               get_historical_klines client
                 (request_until symbol interval start_str klines_type e) = inl err)
    as Hraise.
  { intros err ->. apply loop_raise_last in Hrun as (evs' & s & e & Htr' & Hl & Hf).
    rewrite Htr in Htr'. apply app_inv_head in Htr' as <-. eauto. }
  exists o, w', (windows_of evs). split; [reflexivity|].
  split; [apply Hfuel; lia|].
  split; [rewrite Htr; apply windows_of_app|].
  split; [rewrite Htr, requests_of_app, Hreq; reflexivity|].
  split; [|split; [|split; [|split; [|split; [|split; [|split]]]]]].
  - split; [rewrite Hws; cbn; lia|].
    etrans; [apply prefix_length, Hpre|apply plan_length].
  - intros Hle. unfold fuel_for in Hpre. cbn [Nat.add] in Hpre.
    rewrite plan_single in Hpre by exact Hle.
    rewrite Hws in *. destruct Hpre as [k Hk].
    destruct rest; [|discriminate]. injection Hk as <- _. reflexivity.
  - intros Hgt. exists rest. rewrite Hws. f_equal. f_equal.
    destruct (Hshape 0%nat start_point_dt until) as [_ ->]; [rewrite Hws; reflexivity|].
    rewrite decide_True by exact Hgt. reflexivity.
  - exact Hshape.
  - intros i s e s' e' Hi HSi.
    eapply prefix_lookup_Some in Hi; [|exact Hpre].
    eapply prefix_lookup_Some in HSi; [|exact Hpre].
    destruct (plan_lookup_succ _ _ _ _ _ _ _ _ Hi HSi) as (Hgt & _ & ->).
    unfold one_year, days in *. lia.
  - intros i s end_dt answer Hi Hanswer.
    destruct o as [df'|err|]; [| |exfalso; apply Hfuel; [lia|reflexivity]].
    + destruct (chained_bounded _ _ _ _ _ _ (Hret df' eq_refl) Hi) as (-> & e' & HSi).
      exists e'. rewrite HSi. f_equal. f_equal. unfold one_year, days. lia.
    + destruct (Hraise err eq_refl) as (sl & el & Hlast & Hfail).
      destruct (windows_of evs !! S i) as [[s' e']|] eqn:HSi.
      * exists e'. f_equal. f_equal.
        eapply prefix_lookup_Some in Hi; [|exact Hpre].
        eapply prefix_lookup_Some in HSi; [|exact Hpre].
        destruct (plan_lookup_succ _ _ _ _ _ _ _ _ Hi HSi) as (_ & _ & ->).
        unfold one_year, days. lia.
      * assert (Some (sl, el) = Some (s, Some end_dt)) as [= -> ->]
          by (rewrite <- Hlast; exact (last_of_lookup _ _ _ Hi HSi)).
        congruence.
  - intros df' Hok. eapply chained_last, Hret, Hok.
  - exact Hraise.
Qed.

End LoopFacts.

(** ** The resume point *)

Lemma logged_logged evs1 evs2 w : logged evs2 (logged evs1 w) = logged (evs1 ++ evs2) w.
Proof. unfold logged. cbn. rewrite app_assoc. reflexivity. Qed.

Lemma emit_logged e w : emit e w = (Ok tt, logged [e] w).
Proof. reflexivity. Qed.

Lemma load_or_create_new cfg quote binance_freq latest_ts file_name w :
  files w !! file_name = None ->
  load_or_create cfg quote binance_freq latest_ts file_name w
  = (Ok (empty_frame, Stamp datetime_2017_01_01),
     logged [Info (FileNotFound quote binance_freq)] w).
Proof.
  intros Hnone. unfold load_or_create, bind, is_file. rewrite Hnone.
  rewrite bool_decide_eq_false_2 by (intros [? ?]; discriminate).
  reflexivity.
Qed.

Lemma load_or_create_existing cfg quote binance_freq latest_ts file_name w df0 :
  files w !! file_name = Some df0 ->
  load_or_create cfg quote binance_freq latest_ts file_name w
  = match load_existing (time_column cfg) df0 with
    | inl e => (Raise e, logged [ReadCsv file_name] w)
    | inr loaded =>
        (Ok loaded,
         logged [ReadCsv file_name;
                 Info (FileFound quote binance_freq latest_ts file_name)] w)
    end.
Proof.
  intros Hsome. unfold load_or_create, bind, is_file. rewrite Hsome.
  rewrite bool_decide_eq_true_2 by eauto. cbn. rewrite Hsome.
  destruct (load_existing (time_column cfg) df0) as [e|loaded]; cbn; [reflexivity|].
  unfold logged. cbn. rewrite <- app_assoc. reflexivity.
Qed.

(** C3. Without a file the resume point is 2017-01-01 and the frame is
    empty.  With a file whose table has at least five rows, the resume
    point is the value of column ["timestamp"] five rows from the end; for
    a table of 100 rows [t1..t100] that is [t96] (position 95), which is
    neither [t100] nor [t1] as the timestamps of a table are distinct. *)
Theorem resume_point cfg quote binance_freq latest_ts file_name w :
  (files w !! file_name = None ->
   load_or_create cfg quote binance_freq latest_ts file_name w
   = (Ok (empty_frame, Stamp datetime_2017_01_01),
      logged [Info (FileNotFound quote binance_freq)] w)) /\
  (forall df0 df timestamps,
      files w !! file_name = Some df0 ->
      parse_time_column (time_column cfg) df0 = inr df ->
      getitem "timestamp" df = inr timestamps ->
      (5 <= length (rows df0))%nat ->
      exists oldest_point,
        timestamps !! (length (rows df0) - 5)%nat = Some oldest_point /\
        load_or_create cfg quote binance_freq latest_ts file_name w
        = (Ok (df, oldest_point),
           logged [ReadCsv file_name;
                   Info (FileFound quote binance_freq latest_ts file_name)] w) /\
        (length (rows df0) = 100%nat ->
         timestamps !! 95%nat = Some oldest_point /\
         (NoDup timestamps ->
          timestamps !! 99%nat <> Some oldest_point /\
          timestamps !! 0%nat <> Some oldest_point))).
Proof.
  split; [apply load_or_create_new|].
  intros df0 df timestamps Hfile Hparse Hget Hlen.
  pose proof (getitem_length _ _ _ Hget) as Hts.
  destruct (parse_time_column_shape _ _ _ Hparse) as [_ Hrows].
  rewrite Hrows in Hts.
  destruct (iloc_from_end_long 5 timestamps) as (c & Hc & Hiloc); [lia|].
  rewrite Hts in Hc.
  exists c. split; [exact Hc|]. split.
  - rewrite (load_or_create_existing _ _ _ _ _ _ _ Hfile).
    unfold load_existing, oldest_point_of. rewrite Hparse, Hget, Hiloc. reflexivity.
  - intros H100. rewrite H100 in Hc. cbn in Hc. split; [exact Hc|].
    intros Hnodup. split; intros Hother.
    + pose proof (NoDup_lookup _ _ _ _ Hnodup Hc Hother). lia.
    + pose proof (NoDup_lookup _ _ _ _ Hnodup Hc Hother). lia.
Qed.

(** C10. The resume point is read from the column named ["timestamp"], not
    from the configured time column.  When the two names differ: a loaded
    table (its time column, if it has one, parses) without a column
    ["timestamp"] raises [KeyError]; and when the column exists, parsing
    the time column leaves it as it was read, so the resume point is the
    unparsed value of the file. *)
Theorem timestamp_column_is_hard_coded time_column df0 :
  time_column <> "timestamp" ->
  (get_loc "timestamp" (columns df0) = None ->
   (forall series, getitem time_column df0 = inr series ->
                   exists parsed, to_datetime series = inr parsed) ->
   exists key, load_existing time_column df0 = inl (KeyError key)) /\
  (forall df,
      parse_time_column time_column df0 = inr df ->
      getitem "timestamp" df = getitem "timestamp" df0 /\
      oldest_point_of df = oldest_point_of df0 /\
      load_existing time_column df0
      = match oldest_point_of df0 with
        | inl e => inl e
        | inr raw => inr (df, raw)
        end).
Proof.
  intros Hne. split.
  - intros Hnone Hparses. unfold load_existing.
    destruct (parse_time_column time_column df0) as [e|df] eqn:Hparse.
    + unfold parse_time_column in Hparse.
      destruct (getitem time_column df0) as [e'|series] eqn:Hget.
      * injection Hparse as <-. unfold getitem in Hget.
        destruct (get_loc time_column (columns df0)); [discriminate|].
        injection Hget as <-. eauto.
      * destruct (Hparses series eq_refl) as [parsed Hp]. rewrite Hp in Hparse.
        discriminate.
    + destruct (parse_time_column_shape _ _ _ Hparse) as [Hcols _].
      unfold oldest_point_of, getitem. rewrite Hcols, Hnone. eauto.
  - intros df Hparse.
    pose proof (parse_time_column_other _ _ _ _ Hne Hparse) as Hsame.
    split; [exact Hsame|].
    assert (oldest_point_of df = oldest_point_of df0) as Hold.
    { unfold oldest_point_of. rewrite Hsame. reflexivity. }
    split; [exact Hold|].
    unfold load_existing. rewrite Hparse, Hold. reflexivity.
Qed.

(** ** One job: fetch, trim, persist *)

Section JobFacts.

Variable clock : nat -> datetime.
Variable client : Client.
Variable klines_to_df : list Kline -> DataFrame -> DataFrame.

Local Abbreviation loop := (while_more_data_to_fetch client klines_to_df).
Local Abbreviation job := (get_binance_historical_klines clock client klines_to_df).

Lemma iloc_drop_last_snoc df body r :
  rows df = body ++ [r] -> rows (iloc_drop_last df) = body.
Proof.
  intros H. cbn. rewrite H, length_app. cbn.
  replace (length body + 1 - 1)%nat with (length body) by lia.
  apply take_app_length.
Qed.

(** A job that does not return normally has written nothing. *)
Lemma job_failure_writes_nothing fuel symbol interval start_str klines_type
    df file_name w o w' :
  job fuel symbol interval start_str klines_type df file_name w = (o, w') ->
  o <> Ok tt ->
  files w' = files w /\ writes_of (trace w') = writes_of (trace w).
Proof.
  unfold get_binance_historical_klines, bind, datetime_now, fromisoformat.
  destruct (loop _ _ _ _ _ _ _ _ _) as [o1 w1] eqn:Hloop.
  apply loop_run in Hloop as (Hf & _ & evs & Htr & Hw & _).
  cbn in Hf, Htr.
  destruct o1 as [merged|e|]; cbn.
  - intros [= <- <-] Hne. destruct Hne. reflexivity.
  - intros [= <- <-] _. rewrite Hf, Htr, writes_of_app, Hw, app_nil_r. done.
  - intros [= <- <-] _. rewrite Hf, Htr, writes_of_app, Hw, app_nil_r. done.
Qed.


(** C4. Whenever the window loop returns a merged table, the job writes
    the file exactly once, after the loop, and what it writes is the
    merged table without its last row: a table of one row or of no row
    is written as the empty table, without error. *)
Theorem last_row_trimmed_then_persisted fuel symbol interval start_str
    klines_type df file_name w now w0 merged w1 :
  datetime_now clock w = (Ok now, w0) ->
  loop fuel now symbol interval start_str klines_type (fromisoformat start_str)
    df w0 = (Ok merged, w1) ->
  exists w',
    job fuel symbol interval start_str klines_type df file_name w = (Ok tt, w') /\
    files w' = <[file_name := render (iloc_drop_last merged)]> (files w) /\
    writes_of (trace w')
    = writes_of (trace w) ++ [(file_name, iloc_drop_last merged)] /\
    columns (iloc_drop_last merged) = columns merged /\
    (forall body r, rows merged = body ++ [r] ->
                    rows (iloc_drop_last merged) = body) /\
    (rows merged = [] -> rows (iloc_drop_last merged) = []).
Proof.
  intros Hnow Hloop.
  unfold get_binance_historical_klines.
  rewrite (bind_ok _ _ _ _ _ Hnow), (bind_ok _ _ _ _ _ Hloop).
  injection Hnow as <- <-.
  apply loop_run in Hloop as (Hf & _ & evs & Htr & Hw & _).
  cbn in Hf, Htr.
  eexists. split; [reflexivity|]. cbn.
  split; [rewrite Hf; reflexivity|].
  split; [rewrite Htr, !writes_of_app, Hw; cbn; rewrite !app_nil_r; reflexivity|].
  split; [reflexivity|].
  split; [intros body r; apply iloc_drop_last_snoc|].
  intros ->. reflexivity.
Qed.

End JobFacts.

(** ** The loop over the data sources *)

Lemma writes_nothing_ret {A} (a : A) : writes_nothing (ret a).
Proof. intros w o w' [= <- <-]. done. Qed.

Lemma writes_nothing_raise {A} e : writes_nothing (@raise A e).
Proof. intros w o w' [= <- <-]. done. Qed.

Lemma writes_nothing_lift {A} (r : Exn + A) : writes_nothing (lift r).
Proof. destruct r; [apply writes_nothing_raise|apply writes_nothing_ret]. Qed.

Lemma writes_nothing_emit e : write_of e = None -> writes_nothing (emit e).
Proof.
  intros He w o w' [= <- <-]. cbn. split; [reflexivity|].
  rewrite writes_of_app. cbn. rewrite He. apply app_nil_r.
Qed.

Lemma writes_nothing_bind {A B} (m : M A) (k : A -> M B) :
  writes_nothing m -> (forall a, writes_nothing (k a)) -> writes_nothing (bind m k).
Proof.
  intros Hm Hk w o w'. unfold bind.
  destruct (m w) as [[a|e|] w1] eqn:Hrun; destruct (Hm _ _ _ Hrun) as [Hf Ht].
  - intros Hrun2. destruct (Hk a _ _ _ Hrun2) as [Hf2 Ht2]. split; congruence.
  - intros [= <- <-]. done.
  - intros [= <- <-]. done.
Qed.

Lemma writes_only_on_success_bind {A B} (m : M A) (k : A -> M B) :
  writes_nothing m -> (forall a, writes_only_on_success (k a)) ->
  writes_only_on_success (bind m k).
Proof.
  intros Hm Hk w o w'. unfold bind.
  destruct (m w) as [[a|e|] w1] eqn:Hrun; destruct (Hm _ _ _ Hrun) as [Hf Ht].
  - intros Hrun2 Hfail. destruct (Hk a _ _ _ Hrun2 Hfail) as [Hf2 Ht2].
    split; congruence.
  - intros [= <- <-]. done.
  - intros [= <- <-]. done.
Qed.

Lemma writes_only_on_success_then_ret {A B} (m : M A) (b : B) :
  writes_only_on_success m -> writes_only_on_success (bind m (fun _ => ret b)).
Proof.
  intros Hm w o w'. unfold bind.
  destruct (m w) as [[a|e|] w1] eqn:Hrun.
  - intros [= <- <-] Hfail. destruct (Hfail b). reflexivity.
  - intros [= <- <-] _. apply (Hm _ _ _ Hrun). discriminate.
  - intros [= <- <-] _. apply (Hm _ _ _ Hrun). discriminate.
Qed.

Lemma writes_nothing_weaken {A} (m : M A) :
  writes_nothing m -> writes_only_on_success m.
Proof. intros Hm w o w' Hrun _. exact (Hm _ _ _ Hrun). Qed.

Lemma writes_nothing_is_file file_name : writes_nothing (is_file file_name).
Proof. intros w o w' [= <- <-]. done. Qed.

Lemma writes_nothing_read_csv file_name : writes_nothing (read_csv file_name).
Proof.
  apply writes_nothing_bind; [apply writes_nothing_emit; reflexivity|].
  intros _ w o w'. destruct (files w !! file_name); intros [= <- <-]; done.
Qed.

Lemma writes_nothing_load_or_create cfg quote binance_freq latest_ts file_name :
  writes_nothing (load_or_create cfg quote binance_freq latest_ts file_name).
Proof.
  apply writes_nothing_bind; [apply writes_nothing_is_file|].
  intros found. destruct found; cbn.
  - apply writes_nothing_bind; [apply writes_nothing_read_csv|]. intros df.
    apply writes_nothing_bind; [apply writes_nothing_lift|]. intros loaded.
    apply writes_nothing_bind; [apply writes_nothing_emit; reflexivity|].
    intros _. apply writes_nothing_ret.
  - apply writes_nothing_bind; [apply writes_nothing_emit; reflexivity|].
    intros _. apply writes_nothing_ret.
Qed.

Section MainFacts.

Variable clock : nat -> datetime.
Variable client : Client.
Variable klines_to_df : list Kline -> DataFrame -> DataFrame.

Local Abbreviation job := (get_binance_historical_klines clock client klines_to_df).
Local Abbreviation one := (download clock client klines_to_df).
Local Abbreviation all := (for_data_sources clock client klines_to_df).

Lemma writes_nothing_client_get_klines symbol interval limit :
  writes_nothing (client_get_klines client symbol interval limit).
Proof.
  apply writes_nothing_bind; [apply writes_nothing_emit; reflexivity|].
  intros _. apply writes_nothing_lift.
Qed.

(** A data source whose download does not return normally leaves the
    files as they were. *)
Lemma download_writes_only_on_success fuel cfg binance_freq ds df_var :
  writes_only_on_success (one fuel cfg binance_freq ds df_var).
Proof.
  unfold download. destruct (decide _).
  { apply writes_nothing_weaken, writes_nothing_bind;
      [apply writes_nothing_emit; reflexivity|].
    intros _. apply writes_nothing_ret. }
  apply writes_only_on_success_bind; [apply writes_nothing_emit; reflexivity|].
  intros _.
  apply writes_only_on_success_bind; [apply writes_nothing_emit; reflexivity|].
  intros _.
  apply writes_only_on_success_bind.
  { destruct (ds_file ds); [apply writes_nothing_ret|apply writes_nothing_raise]. }
  intros file_name.
  apply writes_only_on_success_bind; [apply writes_nothing_client_get_klines|].
  intros latest_klines.
  apply writes_only_on_success_bind.
  { destruct (last latest_klines); [apply writes_nothing_ret|apply writes_nothing_raise]. }
  intros latest_ts.
  apply writes_only_on_success_bind; [apply writes_nothing_load_or_create|].
  intros loaded.
  apply writes_only_on_success_bind; [apply writes_nothing_lift|].
  intros start_str.
  apply writes_only_on_success_then_ret.
  intros w o w' Hrun Hfail.
  eapply job_failure_writes_nothing; [exact Hrun|]. destruct o as [[]| |]; [|done..].
  destruct (Hfail tt). reflexivity.
Qed.

(** The download of a well-configured source, up to the point where the
    existing file is looked for. *)
Lemma download_run fuel cfg binance_freq ds df_var w quote file latest_klines k :
  ds_folder ds = Some quote -> quote <> "" -> ds_file ds = Some file ->
  get_klines client quote binance_freq 5 = inr latest_klines ->
  last latest_klines = Some k ->
  one fuel cfg binance_freq ds df_var w
  = bind (load_or_create cfg quote binance_freq (of_millis (open_time k))
            (with_suffix file ".csv"))
      (fun loaded =>
         start_str <- lift (isoformat (snd loaded)) ;;
         job fuel quote binance_freq start_str
           (if decide (default "spot" (ds_type ds) = "futures")
            then FUTURES else SPOT)
           (fst loaded) (with_suffix file ".csv") ;;
         ret (Some (fst loaded)))
      (logged [Info (StartDownloading quote (default "spot" (ds_type ds)));
               Mkdir (path_join (data_folder cfg) quote);
               CallGetKlines quote binance_freq 5] w).
Proof.
  intros Hfolder Hquote Hfile Hklines Hlast.
  unfold download. rewrite Hfolder, Hfile.
  change (default "" (Some quote)) with quote.
  destruct (decide (quote = "")) as [|_]; [done|].
  unfold logger_info, client_get_klines.
  rewrite (bind_ok _ _ _ _ _ (emit_logged _ _)).
  rewrite (bind_ok _ _ _ _ _ (emit_logged _ _)).
  unfold bind at 1. unfold ret at 1.
  unfold bind at 1. unfold bind at 1. rewrite emit_logged.
  rewrite Hklines. cbn [lift]. unfold ret at 1.
  rewrite Hlast. unfold bind at 1. unfold ret at 1.
  rewrite !logged_logged. reflexivity.
Qed.

Lemma for_data_sources_app fuel cfg binance_freq pre :
  forall post df_var w,
    all fuel cfg binance_freq (pre ++ post) df_var w
    = bind (all fuel cfg binance_freq pre df_var)
        (fun df_var => all fuel cfg binance_freq post df_var) w.
Proof.
  induction pre as [|ds pre IH]; intros post df_var w; [reflexivity|].
  cbn. unfold bind.
  destruct (one fuel cfg binance_freq ds df_var w) as [[d|e|] w1];
    [|reflexivity..].
  rewrite IH. reflexivity.
Qed.

(** C5, as the script has it.  An exception raised while a data source is
    downloaded, among them every error of the remote source, leaves no
    file written for that source, and it ends the whole loop: the run
    stops in the world of the failure and the data sources after it are
    not processed. *)
Theorem failure_aborts_the_run fuel cfg binance_freq pre ds post df_var w
    df_var1 w1 e w2 :
  all fuel cfg binance_freq pre df_var w = (Ok df_var1, w1) ->
  one fuel cfg binance_freq ds df_var1 w1 = (Raise e, w2) ->
  all fuel cfg binance_freq (pre ++ ds :: post) df_var w = (Raise e, w2) /\
  files w2 = files w1 /\
  writes_of (trace w2) = writes_of (trace w1).
Proof.
  intros Hpre Hds. split.
  - rewrite for_data_sources_app, (bind_ok _ _ _ _ _ Hpre).
    cbn. apply bind_raise, Hds.
  - eapply download_writes_only_on_success; [exact Hds|discriminate].
Qed.

(** C9. A file whose table has a column ["timestamp"] and fewer than five
    rows: reading the resume point raises [IndexError], the download of
    that data source raises it without any request for a range and without
    writing; no resume point is produced, neither the last row nor
    2017-01-01. *)
Theorem fewer_than_five_rows_fails fuel cfg binance_freq ds df_var w quote file
    latest_klines k df0 df :
  ds_folder ds = Some quote -> quote <> "" -> ds_file ds = Some file ->
  get_klines client quote binance_freq 5 = inr latest_klines ->
  last latest_klines = Some k ->
  files w !! with_suffix file ".csv" = Some df0 ->
  parse_time_column (time_column cfg) df0 = inr df ->
  is_Some (get_loc "timestamp" (columns df0)) ->
  (length (rows df0) < 5)%nat ->
  oldest_point_of df = inl IndexError /\
  load_existing (time_column cfg) df0 = inl IndexError /\
  exists w',
    one fuel cfg binance_freq ds df_var w = (Raise IndexError, w') /\
    files w' = files w /\
    requests_of (trace w') = requests_of (trace w) /\
    writes_of (trace w') = writes_of (trace w).
Proof.
  intros Hfolder Hquote Hfile Hklines Hlast Hcsv Hparse [j Hj] Hshort.
  destruct (parse_time_column_shape _ _ _ Hparse) as [Hcols Hrows].
  assert (oldest_point_of df = inl IndexError) as Hold.
  { unfold oldest_point_of, getitem. rewrite Hcols, Hj.
    apply iloc_from_end_short. rewrite length_fmap. lia. }
  assert (load_existing (time_column cfg) df0 = inl IndexError) as Hload.
  { unfold load_existing. rewrite Hparse, Hold. reflexivity. }
  split; [exact Hold|]. split; [exact Hload|].
  erewrite download_run by eassumption.
  unfold bind at 1.
  rewrite (load_or_create_existing _ _ _ _ _ _ df0) by exact Hcsv.
  rewrite Hload. eexists. split; [reflexivity|].
  cbn. split; [reflexivity|].
  rewrite !requests_of_app, !writes_of_app. cbn. rewrite !app_nil_r. done.
Qed.

End MainFacts.

(** ** The merge *)

Section MergeFacts.

Context {Row : Type}.
Variable timestamp : Row -> Z.

Local Abbreviation upsert := (SeriesMerger.upsert timestamp).
Local Abbreviation merge := (SeriesMerger.merge timestamp).
Local Abbreviation row_at := (SeriesMerger.row_at timestamp).
Local Abbreviation strictly_ordered := (SeriesMerger.strictly_ordered timestamp).
Local Abbreviation before := (fun r s : Row => timestamp r < timestamp s).

Lemma merge_cons table b batch : merge table (b :: batch) = merge (upsert b table) batch.
Proof. reflexivity. Qed.

Lemma Forall_upsert (P : Row -> Prop) b table :
  P b -> Forall P table -> Forall P (upsert b table).
Proof.
  intros Hb. induction 1 as [|r rest Hr Hrest IH]; cbn.
  - repeat constructor. exact Hb.
  - repeat case_decide; repeat constructor; assumption.
Qed.

Lemma upsert_ordered b table :
  strictly_ordered table -> strictly_ordered (upsert b table).
Proof.
  induction 1 as [|r rest Hsorted IH Hall]; cbn.
  - repeat constructor.
  - destruct (decide (timestamp b < timestamp r)) as [Hlt|Hge].
    + constructor; [constructor; assumption|].
      constructor; [exact Hlt|].
      eapply Forall_impl; [exact Hall|]. cbn. intros; lia.
    + destruct (decide (timestamp b = timestamp r)) as [Heq|Hne].
      * constructor; [assumption|].
        eapply Forall_impl; [exact Hall|]. cbn. intros; lia.
      * constructor; [exact IH|].
        apply Forall_upsert; [lia|exact Hall].
Qed.

Lemma merge_ordered batch :
  forall table, strictly_ordered table -> strictly_ordered (merge table batch).
Proof.
  induction batch as [|b batch IH]; intros table Htable; [exact Htable|].
  rewrite merge_cons. apply IH, upsert_ordered, Htable.
Qed.

Lemma row_at_upsert t b table :
  row_at t (upsert b table)
  = if decide (timestamp b = t) then Some b else row_at t table.
Proof.
  induction table as [|r rest IH]; cbn; [reflexivity|].
  destruct (decide (timestamp b < timestamp r)); cbn; [reflexivity|].
  destruct (decide (timestamp b = timestamp r)) as [Heq|Hne]; cbn.
  - repeat case_decide; try reflexivity; lia.
  - rewrite IH. repeat case_decide; try reflexivity; lia.
Qed.

Lemma row_at_app t l1 l2 :
  row_at t (l1 ++ l2)
  = match row_at t l1 with Some r => Some r | None => row_at t l2 end.
Proof.
  induction l1 as [|r l1 IH]; cbn; [reflexivity|].
  case_decide; [reflexivity|exact IH].
Qed.

(** After a merge, the row at a timestamp is the last row the batch has
    for it, and the row of the table when the batch has none. *)
Lemma row_at_merge t batch :
  forall table,
    row_at t (merge table batch)
    = match row_at t (reverse batch) with
      | Some b => Some b
      | None => row_at t table
      end.
Proof.
  induction batch as [|b batch IH]; intros table; [reflexivity|].
  rewrite merge_cons, IH, reverse_cons, row_at_app, row_at_upsert. cbn.
  destruct (row_at t (reverse batch)); [reflexivity|].
  case_decide; reflexivity.
Qed.

Lemma row_at_Some t table r :
  row_at t table = Some r -> r ∈ table /\ timestamp r = t.
Proof.
  induction table as [|r0 rest IH]; cbn; [discriminate|].
  case_decide.
  - intros [= <-]. split; [constructor|assumption].
  - intros H1. destruct (IH H1). split; [constructor|]; assumption.
Qed.

Lemma row_at_None t table :
  Forall (fun r => t < timestamp r) table -> row_at t table = None.
Proof.
  induction 1 as [|r rest Hr Hrest IH]; cbn; [reflexivity|].
  case_decide; [lia|exact IH].
Qed.

Lemma row_at_elem table :
  strictly_ordered table ->
  forall r, r ∈ table -> row_at (timestamp r) table = Some r.
Proof.
  induction 1 as [|r0 rest Hsorted IH Hall]; intros r Hin.
  - inversion Hin.
  - cbn. apply elem_of_cons in Hin as [->|Hin].
    + case_decide; [reflexivity|done].
    + rewrite Forall_forall in Hall. specialize (Hall r Hin). cbn in Hall.
      case_decide; [lia|]. apply IH, Hin.
Qed.

(** Two strictly ordered tables with the same row at every timestamp are
    the same table. *)
Lemma ordered_ext l1 :
  forall l2,
    strictly_ordered l1 -> strictly_ordered l2 ->
    (forall t, row_at t l1 = row_at t l2) -> l1 = l2.
Proof.
  induction l1 as [|r1 l1 IH]; intros [|r2 l2] H1 H2 Hext.
  - reflexivity.
  - specialize (Hext (timestamp r2)). cbn in Hext.
    case_decide; [discriminate|done].
  - specialize (Hext (timestamp r1)). cbn in Hext.
    case_decide; [discriminate|done].
  - apply StronglySorted_inv in H1 as [H1 Hall1].
    apply StronglySorted_inv in H2 as [H2 Hall2].
    assert (timestamp r1 = timestamp r2) as Hts.
    { pose proof (Hext (timestamp r1)) as E1.
      pose proof (Hext (timestamp r2)) as E2. cbn in E1, E2.
      rewrite decide_True in E1 by reflexivity.
      rewrite (decide_True (P := timestamp r2 = timestamp r2)) in E2 by reflexivity.
      destruct (decide (timestamp r2 = timestamp r1)) as [|Hne]; [lia|].
      rewrite decide_False in E2 by lia.
      symmetry in E1. apply row_at_Some in E1 as [Hin1 _].
      apply row_at_Some in E2 as [Hin2 _].
      rewrite Forall_forall in Hall1, Hall2.
      specialize (Hall1 _ Hin2). specialize (Hall2 _ Hin1). cbn in *. lia. }
    assert (r1 = r2) as <-.
    { specialize (Hext (timestamp r1)). cbn in Hext.
      rewrite decide_True in Hext by reflexivity.
      rewrite decide_True in Hext by lia. congruence. }
    f_equal. apply IH; [assumption..|].
    intros t. specialize (Hext t). cbn in Hext.
    destruct (decide (timestamp r1 = t)) as [<-|Hne]; [|exact Hext].
    rewrite !row_at_None; [reflexivity|assumption..].
Qed.






Lemma ordered_NoDup table :
  strictly_ordered table -> NoDup (timestamp <$> table).
Proof.
  induction 1 as [|r rest Hsorted IH Hall]; cbn; constructor; [|exact IH].
  rewrite list_elem_of_fmap. intros (s & Heq & Hin).
  rewrite Forall_forall in Hall. specialize (Hall s Hin). cbn in Hall. lia.
Qed.

Lemma row_at_elem_NoDup l :
  NoDup (timestamp <$> l) ->
  forall r, r ∈ l -> row_at (timestamp r) l = Some r.
Proof.
  induction l as [|r0 rest IH]; cbn; intros Hnd r Hin; [inversion Hin|].
  apply NoDup_cons in Hnd as [Hfresh Hnd].
  apply elem_of_cons in Hin as [->|Hin].
  - case_decide; [reflexivity|done].
  - case_decide as Heq; [|apply IH; assumption].
    destruct Hfresh. rewrite Heq. apply list_elem_of_fmap. eauto.
Qed.

Lemma row_at_reverse t batch :
  strictly_ordered batch -> row_at t (reverse batch) = row_at t batch.
Proof.
  intros Hsorted. pose proof (ordered_NoDup _ Hsorted) as Hnd.
  assert (NoDup (timestamp <$> reverse batch)) as Hnd'.
  { rewrite fmap_reverse, reverse_Permutation. exact Hnd. }
  destruct (row_at t batch) as [b|] eqn:Hb.
  - apply row_at_Some in Hb as [Hin <-].
    apply row_at_elem_NoDup; [exact Hnd'|]. rewrite elem_of_reverse. exact Hin.
  - destruct (row_at t (reverse batch)) as [b|] eqn:Hb'; [|reflexivity].
    apply row_at_Some in Hb' as [Hin <-]. rewrite elem_of_reverse in Hin.
    rewrite (row_at_elem_NoDup _ Hnd _ Hin) in Hb. discriminate.
Qed.

(** C6. For a strictly ordered table and a strictly ordered batch: at a
    timestamp present in both, the merged table has the batch's row (as
    it has every row of the batch); a row of the table older than every
    row of the batch is kept as it is; the merged table is strictly
    ordered by timestamp, so no timestamp occurs twice. *)
Theorem merge_contract table batch :
  strictly_ordered table ->
  strictly_ordered batch ->
  (forall t r b,
      row_at t table = Some r -> row_at t batch = Some b ->
      row_at t (merge table batch) = Some b) /\
  (forall b, b ∈ batch -> row_at (timestamp b) (merge table batch) = Some b) /\
  (forall r, r ∈ table ->
             Forall (fun b => timestamp r < timestamp b) batch ->
             row_at (timestamp r) (merge table batch) = Some r) /\
  strictly_ordered (merge table batch) /\
  NoDup (timestamp <$> merge table batch).
Proof.
  intros Htable Hbatch.
  pose proof (merge_ordered batch table Htable) as Hmerged.
  repeat split.
  - intros t r b _ Hb. rewrite row_at_merge, row_at_reverse, Hb by exact Hbatch.
    reflexivity.
  - intros b Hin.
    rewrite row_at_merge, row_at_reverse, (row_at_elem _ Hbatch _ Hin)
      by exact Hbatch.
    reflexivity.
  - intros r Hin Holder.
    rewrite row_at_merge, row_at_None by (apply Forall_reverse, Holder).
    apply row_at_elem; assumption.
  - exact Hmerged.
  - apply ordered_NoDup, Hmerged.
Qed.

(** Upserting a row the table already has changes nothing. *)
Lemma upsert_elem table :
  strictly_ordered table -> forall b, b ∈ table -> upsert b table = table.
Proof.
  induction 1 as [|r rest Hsorted IH Hall]; intros b Hin; [inversion Hin|].
  cbn. apply elem_of_cons in Hin as [->|Hin].
  - rewrite decide_False by lia. rewrite decide_True by reflexivity. reflexivity.
  - rewrite Forall_forall in Hall. specialize (Hall b Hin). cbn in Hall.
    rewrite !decide_False by lia. f_equal. apply IH, Hin.
Qed.


Lemma merge_elems table batch :
  strictly_ordered table -> Forall (fun b => b ∈ table) batch ->
  merge table batch = table.
Proof.
  intros Htable. induction 1 as [|b batch Hb Hbatch IH]; [reflexivity|].
  rewrite merge_cons, upsert_elem by assumption. exact IH.
Qed.


End MergeFacts.

(** ** A second run over the same data *)

Section SecondRun.

Import SeriesMerger.

Variable clock : nat -> datetime.
Variable client : Client.

Local Abbreviation loop := (while_more_data_to_fetch client klines_to_df).
Local Abbreviation job := (get_binance_historical_klines clock client klines_to_df).
Local Abbreviation one := (download clock client klines_to_df).
Local Abbreviation stamp_of := (fun k : Kline => Stamp (of_millis (open_time k))).











End SecondRun.

(** ** Runs on the sample world *)

(** C1, at a start more than a year before now.  From 2017-01-01 with the
    clock on 2018-12-01 the loop announces two windows, the second from
    2017-12-31, but both requests ask the exchange for data from
    2017-01-01: the second request does not start at its window's start. *)
Theorem second_request_ignores_window_start :
  windows_of (trace Sample.loop_run.2)
  = [(days 17167, Some (days 17532)); (days 17531, None)] /\
  req_start_str <$> requests_of (trace Sample.loop_run.2)
  = [days 17167; days 17167] /\
  req_end_str <$> requests_of (trace Sample.loop_run.2)
  = [Some (days 17532); None] /\
  days 17531 <> days 17167.
Proof. vm_compute. repeat split; discriminate. Qed.

(** C2 fails as stated: in the same run the first window ends on
    2018-01-01 and the second starts on 2017-12-31, one day earlier. *)
Lemma adjacent_windows_not_contiguous :
  exists df' w' s e s' e',
    Sample.loop_run = (Ok df', w') /\
    windows_of (trace w') !! 0%nat = Some (s, Some e) /\
    windows_of (trace w') !! 1%nat = Some (s', e') /\
    e <> s'.
Proof.
  exists Sample.loop_frame, Sample.loop_run.2.
  exists (days 17167), (days 17532), (days 17531), None.
  vm_compute. repeat split; discriminate.
Qed.

Lemma windows_overlap_by_one_day_witness :
  exists ws,
    windows_of (trace Sample.loop_run.2) = windows_of (trace Sample.world) ++ ws /\
    (exists e, ws !! 0%nat = Some (datetime_2017_01_01, e)) /\
    (exists s, last ws = Some (s, None) /\ days 17866 - s <= one_year) /\
    (forall i s e, ws !! i = Some (s, Some e) ->
       e = s + one_year /\ exists e', ws !! S i = Some (e - days 1, e')) /\
    (forall i s, ws !! i = Some (s, None) -> S i = length ws).
Proof.
  apply (windows_overlap_by_one_day Sample.client SeriesMerger.klines_to_df 2
           (days 17866) "BTCUSDT" "1m" datetime_2017_01_01 SPOT
           datetime_2017_01_01 empty_frame Sample.world Sample.loop_frame).
  vm_compute. reflexivity.
Defined.

Lemma last_row_trimmed_then_persisted_witness :
  exists w',
    get_binance_historical_klines Sample.clock Sample.client
      SeriesMerger.klines_to_df 2 "BTCUSDT" "1m" datetime_2017_01_01 SPOT
      empty_frame "BTCUSDT/klines.csv" Sample.world = (Ok tt, w') /\
    files w'
    = <["BTCUSDT/klines.csv" := render (iloc_drop_last Sample.job_frame)]>
        (files Sample.world) /\
    writes_of (trace w')
    = writes_of (trace Sample.world)
      ++ [("BTCUSDT/klines.csv", iloc_drop_last Sample.job_frame)] /\
    columns (iloc_drop_last Sample.job_frame) = columns Sample.job_frame /\
    (forall body r, rows Sample.job_frame = body ++ [r] ->
                    rows (iloc_drop_last Sample.job_frame) = body) /\
    (rows Sample.job_frame = [] -> rows (iloc_drop_last Sample.job_frame) = []).
Proof.
  apply (last_row_trimmed_then_persisted Sample.clock Sample.client
           SeriesMerger.klines_to_df 2 "BTCUSDT" "1m" datetime_2017_01_01 SPOT
           empty_frame "BTCUSDT/klines.csv" Sample.world (days 17866)
           Sample.ticked Sample.job_frame Sample.job_loop.2).
  - reflexivity.
  - vm_compute. reflexivity.
Defined.

Lemma resume_point_witness :
  load_or_create (Sample.cfg [Sample.btc]) "BTCUSDT" "1m" 0 "BTCUSDT/klines.csv"
    Sample.world
  = (Ok (empty_frame, Stamp datetime_2017_01_01),
     logged [Info (FileNotFound "BTCUSDT" "1m")] Sample.world) /\
  exists df w',
    load_or_create (Sample.cfg [Sample.btc]) "BTCUSDT" "1m" 0 "BTCUSDT/klines.csv"
      (Sample.world_with (Sample.bars 17766 100))
    = (Ok (df, Stamp (days 17861)), w') /\
    length (rows df) = 100%nat /\
    getitem "timestamp" df
    = inr ((fun k => Stamp (of_millis (open_time k))) <$> Sample.bars 17766 100).
Proof.
  split.
  - apply (resume_point (Sample.cfg [Sample.btc]) "BTCUSDT" "1m" 0
             "BTCUSDT/klines.csv" Sample.world).
    reflexivity.
  - destruct (proj2 (resume_point (Sample.cfg [Sample.btc]) "BTCUSDT" "1m" 0
                       "BTCUSDT/klines.csv"
                       (Sample.world_with (Sample.bars 17766 100)))
                (Sample.stored (Sample.bars 17766 100))
                {| columns := SeriesMerger.kline_columns;
                   rows := SeriesMerger.kline_row <$> Sample.bars 17766 100 |}
                ((fun k => Stamp (of_millis (open_time k)))
                   <$> Sample.bars 17766 100))
      as (oldest_point & Hat & Hrun & _).
    + reflexivity.
    + vm_compute. reflexivity.
    + vm_compute. reflexivity.
    + vm_compute. lia.
    + vm_compute in Hat. injection Hat as <-.
      eexists _, _. split; [exact Hrun|]. split; vm_compute; reflexivity.
Defined.

Lemma timestamp_column_is_hard_coded_witness :
  load_existing "time" Sample.other_time_column = inl (KeyError "timestamp") /\
  (exists df,
      load_existing "time" Sample.both_columns = inr (df, IsoText (days 17861)) /\
      getitem "time" df = inr (Stamp <$> (days <$> seqZ 17860 6)) /\
      getitem "timestamp" df = inr (IsoText <$> (days <$> seqZ 17860 6)) /\
      isoformat (IsoText (days 17861)) = inl AttributeError).
Proof.
  split.
  - destruct (proj1 (timestamp_column_is_hard_coded "time" Sample.other_time_column
                       ltac:(discriminate))) as [key Hkey].
    + reflexivity.
    + intros series [= <-]. eexists. reflexivity.
    + rewrite Hkey. vm_compute in Hkey. injection Hkey as <-. reflexivity.
  - destruct (proj2 (timestamp_column_is_hard_coded "time" Sample.both_columns
                       ltac:(discriminate))
                {| columns := ["time"; "timestamp"; "close"];
                   rows := (fun day => [Stamp (days day); IsoText (days day);
                                        Text "4005.0"]) <$> seqZ 17860 6 |})
      as (_ & _ & Hload).
    + vm_compute. reflexivity.
    + eexists. split; [rewrite Hload; vm_compute; reflexivity|].
      repeat split; vm_compute; reflexivity.
Defined.

Lemma merge_contract_witness :
  (forall t r b,
      SeriesMerger.row_at fst t Sample.table = Some r ->
      SeriesMerger.row_at fst t Sample.batch = Some b ->
      SeriesMerger.row_at fst t (SeriesMerger.merge fst Sample.table Sample.batch)
      = Some b) /\
  (forall b, b ∈ Sample.batch ->
             SeriesMerger.row_at fst (fst b)
               (SeriesMerger.merge fst Sample.table Sample.batch) = Some b) /\
  (forall r, r ∈ Sample.table ->
             Forall (fun b => fst r < fst b) Sample.batch ->
             SeriesMerger.row_at fst (fst r)
               (SeriesMerger.merge fst Sample.table Sample.batch) = Some r) /\
  SeriesMerger.strictly_ordered fst
    (SeriesMerger.merge fst Sample.table Sample.batch) /\
  NoDup (fst <$> SeriesMerger.merge fst Sample.table Sample.batch).
Proof.
  apply (merge_contract fst Sample.table Sample.batch).
  - repeat constructor.
  - repeat constructor.
Defined.

(** The merge on the sample table: the batch's row replaces the row of day
    17864, the older rows stay, the new day is appended. *)
Example merge_sample :
  SeriesMerger.merge fst Sample.table Sample.batch
  = [(17862, "a"); (17863, "b"); (17864, "C"); (17865, "D")].
Proof. reflexivity. Qed.

(** C5 fails as stated: with BTCUSDT refused by the exchange the run ends
    with the exception of that request; ETHUSDT, configured after it, is
    never looked at (no call for it, no file), although on its own it is
    downloaded and written; and no error is logged. *)
Lemma sibling_job_not_processed :
  Sample.refused_run.1 = Raise (BinanceAPIException (-1003)) /\
  omap (fun e => match e with CallGetKlines s _ _ => Some s | _ => None end)
    (trace Sample.refused_run.2) = ["BTCUSDT"] /\
  files Sample.refused_run.2 !! "ETHUSDT/klines.csv" = None /\
  omap (fun e => match e with Error m => Some m | _ => None end)
    (trace Sample.refused_run.2) = [] /\
  Sample.eth_alone_run.1 = Ok empty_frame /\
  (length ∘ rows) <$> files Sample.eth_alone_run.2 !! "ETHUSDT/klines.csv"
  = Some 1%nat.
Proof. vm_compute. repeat split. Qed.

Lemma failure_aborts_the_run_witness :
  for_data_sources Sample.clock Sample.failing_client SeriesMerger.klines_to_df 2
    (Sample.cfg [Sample.btc; Sample.eth]) "1m" ([] ++ Sample.btc :: [Sample.eth])
    None Sample.world
  = (Raise (BinanceAPIException (-1003)), Sample.refused_download.2) /\
  files Sample.refused_download.2 = files Sample.world /\
  writes_of (trace Sample.refused_download.2) = writes_of (trace Sample.world).
Proof.
  apply (failure_aborts_the_run Sample.clock Sample.failing_client
           SeriesMerger.klines_to_df 2 (Sample.cfg [Sample.btc; Sample.eth]) "1m"
           [] Sample.btc [Sample.eth] None Sample.world None Sample.world).
  - reflexivity.
  - vm_compute. reflexivity.
Defined.

Lemma fewer_than_five_rows_fails_witness :
  oldest_point_of
    {| columns := SeriesMerger.kline_columns;
       rows := SeriesMerger.kline_row <$> Sample.bars 17863 3 |}
  = inl IndexError /\
  load_existing "timestamp" (Sample.stored (Sample.bars 17863 3)) = inl IndexError /\
  exists w',
    download Sample.clock Sample.client SeriesMerger.klines_to_df 1
      (Sample.cfg [Sample.btc]) "1m" Sample.btc None
      (Sample.world_with (Sample.bars 17863 3))
    = (Raise IndexError, w') /\
    files w' = files (Sample.world_with (Sample.bars 17863 3)) /\
    requests_of (trace w')
    = requests_of (trace (Sample.world_with (Sample.bars 17863 3))) /\
    writes_of (trace w')
    = writes_of (trace (Sample.world_with (Sample.bars 17863 3))).
Proof.
  apply (fewer_than_five_rows_fails Sample.clock Sample.client
           SeriesMerger.klines_to_df 1 (Sample.cfg [Sample.btc]) "1m" Sample.btc
           None (Sample.world_with (Sample.bars 17863 3)) "BTCUSDT" "BTCUSDT/klines"
           [Sample.bar 17865 "4100.5"] (Sample.bar 17865 "4100.5")
           (Sample.stored (Sample.bars 17863 3))).
  - reflexivity.
  - discriminate.
  - reflexivity.
  - reflexivity.
  - reflexivity.
  - vm_compute. reflexivity.
  - vm_compute. reflexivity.
  - exists 0%nat. reflexivity.
  - vm_compute. lia.
Defined.

(** An exchange that has no row for the range a file covers.  The loop
    then hands the table of the file back as it is, and the job cuts its
    last row off: a file of seven rows holds six rows after the first run
    and five after the second. *)
Lemma sync_twice_not_stable :
  (exists df, Sample.first_run.1 = Ok df) /\
  (exists df, Sample.second_run.1 = Ok df) /\
  requests_of (trace Sample.second_run.2)
  = [request_until "BTCUSDT" "1m" (days 17861) SPOT None;
     request_until "BTCUSDT" "1m" (days 17860) SPOT None] /\
  (length ∘ rows) <$> files Sample.first_run.2 !! "BTCUSDT/klines.csv"
  = Some 6%nat /\
  (length ∘ rows) <$> files Sample.second_run.2 !! "BTCUSDT/klines.csv"
  = Some 5%nat /\
  files Sample.first_run.2 !! "BTCUSDT/klines.csv"
  <> files Sample.second_run.2 !! "BTCUSDT/klines.csv".
Proof.
  vm_compute. repeat split; try (eexists; reflexivity). discriminate.
Qed.

(** * More on the script

    Properties of [main] and [get_binance_historical_klines] beyond the
    ones above. *)

(** ** The windows in closed form *)

Lemma days_364 : one_year - days 1 = days 364.
Proof. reflexivity. Qed.

Lemma plan_lookup_start fuel now :
  forall start_point_dt (i : nat) s e,
    plan fuel now start_point_dt !! i = Some (s, e) ->
    s = start_point_dt + Z.of_nat i * days 364 /\
    (e = None \/ e = Some (s + one_year)).
Proof.
  induction fuel as [|fuel IH]; intros start_point_dt i s e; cbn; [done|].
  destruct (decide _) as [Hgt|Hle].
  - destruct i as [|i]; cbn.
    + intros [= <- <-]. split; [lia|]. right. reflexivity.
    + intros Hi. apply IH in Hi as [-> He]. split; [|exact He].
      unfold one_year, days. lia.
  - destruct i as [|i]; cbn; [|done].
    intros [= <- <-]. split; [lia|]. left. reflexivity.
Qed.

Lemma chained_count now ws :
  forall cursor,
    chained now cursor ws ->
    now - cursor <= one_year + (Z.of_nat (length ws) - 1) * days 364 /\
    ((1 < length ws)%nat ->
     one_year + (Z.of_nat (length ws) - 2) * days 364 < now - cursor).
Proof.
  induction ws as [|[s [e|]] rest IH]; intros cursor H; cbn in H; [done| |].
  - destruct H as (-> & Hgt & -> & H).
    destruct (IH _ H) as [Hup Hlow].
    assert (0 < length rest)%nat as Hpos by (destruct rest; [done|cbn; lia]).
    cbn [length]. unfold one_year, days in *. split; [lia|]. intros _.
    destruct (decide (length rest = 1%nat)) as [H1|H1]; [lia|].
    assert (1 < length rest)%nat as H2 by lia. specialize (Hlow H2). lia.
  - destruct H as (-> & Hle & ->). cbn. unfold one_year, days in *. split; lia.
Qed.

Section LoopMore.

Variable client : Client.
Variable klines_to_df : list Kline -> DataFrame -> DataFrame.

Local Abbreviation loop := (while_more_data_to_fetch client klines_to_df).

(** X1. Whatever the outcome of the loop, the window number [i] it
    announces (counting from 0) starts [364 * i] days after the start
    point, and its end is either open or one year after its start. *)
Theorem window_starts_every_364_days fuel now symbol interval start_str
    klines_type start_point_dt df w :
  exists ws,
    windows_of
      (trace (loop fuel now symbol interval start_str klines_type
                start_point_dt df w).2)
    = windows_of (trace w) ++ ws /\
    forall (i : nat) s e,
      ws !! i = Some (s, e) ->
      s = start_point_dt + Z.of_nat i * days 364 /\
      (e = None \/ e = Some (s + one_year)).
Proof.
  destruct (loop fuel now symbol interval start_str klines_type start_point_dt df w)
    as [o w'] eqn:Hrun.
  apply loop_run in Hrun as (_ & _ & evs & Htr & _ & Hpre & _).
  exists (windows_of evs). split; [cbn; rewrite Htr; apply windows_of_app|].
  intros i s e Hi. eapply plan_lookup_start, prefix_lookup_Some; eauto.
Qed.

(** X2. A loop that returns has sent [n] range requests, where [n] is the
    least number, at least 1, such that [now - start] is at most
    [365 + 364 * (n - 1)] days. *)
Theorem number_of_requests fuel now symbol interval start_str klines_type
    start_point_dt df w df' w' :
  loop fuel now symbol interval start_str klines_type start_point_dt df w
  = (Ok df', w') ->
  exists rs,
    requests_of (trace w') = requests_of (trace w) ++ rs /\
    (1 <= length rs)%nat /\
    now - start_point_dt <= days 365 + (Z.of_nat (length rs) - 1) * days 364 /\
    ((1 < length rs)%nat ->
     days 365 + (Z.of_nat (length rs) - 2) * days 364 < now - start_point_dt).
Proof.
  intros Hrun.
  pose proof Hrun as Hrun'.
  apply loop_ok_chained in Hrun' as (evs & Htr & Hch).
  apply loop_run in Hrun as (_ & _ & evs' & Htr' & _ & _ & Hreq & _).
  rewrite Htr in Htr'. apply app_inv_head in Htr' as <-.
  exists (requests_of evs). split; [rewrite Htr; apply requests_of_app|].
  rewrite Hreq, length_fmap.
  destruct (chained_count _ _ _ Hch) as [Hup Hlow].
  split; [|split; assumption].
  destruct (windows_of evs); [done|cbn; lia].
Qed.

(** X3. The frame a returning loop hands over is the frame it was given,
    passed through [klines_to_df] once per range request, with the answers
    of the exchange in the order of the requests. *)
Theorem merged_frame_folds_the_answers fuel now symbol interval start_str
    klines_type :
  forall start_point_dt df w merged w',
    loop fuel now symbol interval start_str klines_type start_point_dt df w
    = (Ok merged, w') ->
    exists rs answers,
      requests_of (trace w') = requests_of (trace w) ++ rs /\
      Forall2 (fun r a => get_historical_klines client r = inr a) rs answers /\
      merged = foldl (fun d a => klines_to_df a d) df answers.
Proof.
  induction fuel as [|fuel IH]; intros start_point_dt df w merged w' Hrun;
    [discriminate|].
  cbn [while_more_data_to_fetch] in Hrun.
  unfold bind, logger_info, client_get_historical_klines, emit, lift in Hrun.
  cbn in Hrun.
  destruct (decide (one_year < now - start_point_dt)) as [Hgt|Hle].
  - destruct (get_historical_klines client _) as [err|klines] eqn:Hcall;
      cbn in Hrun; [discriminate|].
    apply IH in Hrun as (rs & answers & Htr & Hans & ->).
    eexists (_ :: rs), (klines :: answers).
    split; [rewrite Htr; cbn [trace]; rewrite !requests_of_app; cbn;
            rewrite !app_nil_r, <- !app_assoc; reflexivity|].
    split; [constructor; [exact Hcall|exact Hans]|reflexivity].
  - destruct (get_historical_klines client _) as [err|klines] eqn:Hcall;
      cbn in Hrun; [discriminate|].
    injection Hrun as <- <-. eexists [_], [klines].
    split; [cbn [trace]; rewrite !requests_of_app; cbn;
            rewrite !app_nil_r; reflexivity|].
    split; [repeat constructor; exact Hcall|reflexivity].
Qed.

End LoopMore.

(** ** One data source, step by step *)

Lemma iloc_from_end_elem k series c :
  iloc_from_end k series = inr c -> c ∈ series.
Proof.
  unfold iloc_from_end. destruct (decide _); [|discriminate].
  destruct (series !! _) as [c'|] eqn:Hc; [|discriminate].
  intros [= <-]. eapply list_elem_of_lookup_2, Hc.
Qed.

Lemma bind_ok_inv {A B} (m : M A) (k : A -> M B) w b w' :
  bind m k w = (Ok b, w') ->
  exists a w1, m w = (Ok a, w1) /\ k a w1 = (Ok b, w').
Proof.
  unfold bind. destruct (m w) as [[a|e|] w1]; [eauto|discriminate..].
Qed.

Section DownloadMore.

Variable clock : nat -> datetime.
Variable client : Client.
Variable klines_to_df : list Kline -> DataFrame -> DataFrame.

Local Abbreviation job := (get_binance_historical_klines clock client klines_to_df).
Local Abbreviation one := (download clock client klines_to_df).
Local Abbreviation all := (for_data_sources clock client klines_to_df).

Lemma download_skipped fuel cfg binance_freq ds df_var w :
  default "" (ds_folder ds) = "" ->
  one fuel cfg binance_freq ds df_var w
  = (Ok df_var, logged [Error FolderNotSpecified] w).
Proof.
  intros Hfolder. unfold download. rewrite Hfolder.
  destruct (decide ("" = "")) as [_|]; [reflexivity|done].
Qed.

Lemma download_no_file fuel cfg binance_freq ds df_var w quote :
  ds_folder ds = Some quote -> quote <> "" -> ds_file ds = None ->
  one fuel cfg binance_freq ds df_var w
  = (Raise AttributeError,
     logged [Info (StartDownloading quote (default "spot" (ds_type ds)));
             Mkdir (path_join (data_folder cfg) quote)] w).
Proof.
  intros Hfolder Hquote Hfile. unfold download. rewrite Hfolder, Hfile.
  change (default "" (Some quote)) with quote.
  destruct (decide (quote = "")) as [|_]; [done|].
  unfold logger_info.
  rewrite (bind_ok _ _ _ _ _ (emit_logged _ _)).
  rewrite (bind_ok _ _ _ _ _ (emit_logged _ _)).
  unfold bind, raise. rewrite logged_logged. reflexivity.
Qed.

Lemma download_klines_error fuel cfg binance_freq ds df_var w quote file e :
  ds_folder ds = Some quote -> quote <> "" -> ds_file ds = Some file ->
  get_klines client quote binance_freq 5 = inl e ->
  one fuel cfg binance_freq ds df_var w
  = (Raise e,
     logged [Info (StartDownloading quote (default "spot" (ds_type ds)));
             Mkdir (path_join (data_folder cfg) quote);
             CallGetKlines quote binance_freq 5] w).
Proof.
  intros Hfolder Hquote Hfile Hklines. unfold download. rewrite Hfolder, Hfile.
  change (default "" (Some quote)) with quote.
  destruct (decide (quote = "")) as [|_]; [done|].
  unfold logger_info, client_get_klines.
  rewrite (bind_ok _ _ _ _ _ (emit_logged _ _)).
  rewrite (bind_ok _ _ _ _ _ (emit_logged _ _)).
  unfold bind at 1. unfold ret at 1.
  unfold bind at 1. unfold bind at 1. rewrite emit_logged.
  rewrite Hklines. cbn [lift]. unfold raise.
  rewrite !logged_logged. reflexivity.
Qed.

Lemma download_klines_empty fuel cfg binance_freq ds df_var w quote file
    latest_klines :
  ds_folder ds = Some quote -> quote <> "" -> ds_file ds = Some file ->
  get_klines client quote binance_freq 5 = inr latest_klines ->
  last latest_klines = None ->
  one fuel cfg binance_freq ds df_var w
  = (Raise IndexError,
     logged [Info (StartDownloading quote (default "spot" (ds_type ds)));
             Mkdir (path_join (data_folder cfg) quote);
             CallGetKlines quote binance_freq 5] w).
Proof.
  intros Hfolder Hquote Hfile Hklines Hlast. unfold download.
  rewrite Hfolder, Hfile.
  change (default "" (Some quote)) with quote.
  destruct (decide (quote = "")) as [|_]; [done|].
  unfold logger_info, client_get_klines.
  rewrite (bind_ok _ _ _ _ _ (emit_logged _ _)).
  rewrite (bind_ok _ _ _ _ _ (emit_logged _ _)).
  unfold bind at 1. unfold ret at 1.
  unfold bind at 1. unfold bind at 1. rewrite emit_logged.
  rewrite Hklines. cbn [lift]. unfold ret at 1.
  rewrite Hlast. unfold bind at 1. unfold raise.
  rewrite !logged_logged. reflexivity.
Qed.

(** X4. What stops a data source before its file is looked at.  Without a
    file entry the source raises [AttributeError], after its folder was
    created and before any remote call.  With one, the five latest klines
    are asked for first: an error of that call is the error of the source,
    and an empty answer raises [IndexError] (line 106 indexes it), although
    the latest timestamp only serves a log line.  In each case no file is
    read or written and no range is requested. *)
Theorem failures_before_the_file fuel cfg binance_freq ds df_var w quote :
  ds_folder ds = Some quote -> quote <> "" ->
  (ds_file ds = None ->
   one fuel cfg binance_freq ds df_var w
   = (Raise AttributeError,
      logged [Info (StartDownloading quote (default "spot" (ds_type ds)));
              Mkdir (path_join (data_folder cfg) quote)] w)) /\
  (forall file, ds_file ds = Some file ->
     forall r,
       get_klines client quote binance_freq 5 = r ->
       (r = inr [] \/ exists e, r = inl e) ->
       one fuel cfg binance_freq ds df_var w
       = (Raise (match r with inl e => e | inr _ => IndexError end),
          logged [Info (StartDownloading quote (default "spot" (ds_type ds)));
                  Mkdir (path_join (data_folder cfg) quote);
                  CallGetKlines quote binance_freq 5] w)).
Proof.
  intros Hfolder Hquote. split.
  - intros Hfile. apply download_no_file; assumption.
  - intros file Hfile r Hr [->|[e ->]].
    + eapply download_klines_empty; eauto.
    + eapply download_klines_error; eauto.
Qed.

(** X5. A file that cannot be loaded stops its data source: whatever
    exception lines 118-121 raise on the table read from the file (a missing
    column, a time that does not parse, too few rows) is the outcome of the
    source, right after the file was read: no range is requested and
    nothing is written. *)
Theorem unreadable_table_stops_the_source fuel cfg binance_freq ds df_var w
    quote file latest_klines k df0 e :
  ds_folder ds = Some quote -> quote <> "" -> ds_file ds = Some file ->
  get_klines client quote binance_freq 5 = inr latest_klines ->
  last latest_klines = Some k ->
  files w !! with_suffix file ".csv" = Some df0 ->
  load_existing (time_column cfg) df0 = inl e ->
  one fuel cfg binance_freq ds df_var w
  = (Raise e,
     logged [Info (StartDownloading quote (default "spot" (ds_type ds)));
             Mkdir (path_join (data_folder cfg) quote);
             CallGetKlines quote binance_freq 5;
             ReadCsv (with_suffix file ".csv")] w).
Proof.
  intros Hfolder Hquote Hfile Hklines Hlast Hcsv Hload.
  erewrite download_run by eassumption.
  unfold bind at 1.
  erewrite load_or_create_existing by exact Hcsv.
  rewrite Hload, logged_logged. reflexivity.
Qed.

(** X6. With a time column configured under another name than
    ["timestamp"], a data source that has a file never gets to its
    download: the value read from column ["timestamp"] was not parsed, a
    CSV file holds no timestamp objects, so at the latest
    [oldest_point.isoformat()] raises.  The source raises, requests no
    range and writes nothing. *)
Theorem other_time_column_never_resumes fuel cfg binance_freq ds df_var w
    quote file latest_klines k df0 :
  ds_folder ds = Some quote -> quote <> "" -> ds_file ds = Some file ->
  get_klines client quote binance_freq 5 = inr latest_klines ->
  last latest_klines = Some k ->
  files w !! with_suffix file ".csv" = Some df0 ->
  time_column cfg <> "timestamp" ->
  (forall series c t,
      getitem "timestamp" df0 = inr series -> c ∈ series -> c <> Stamp t) ->
  exists e w',
    one fuel cfg binance_freq ds df_var w = (Raise e, w') /\
    files w' = files w /\
    requests_of (trace w') = requests_of (trace w) /\
    writes_of (trace w') = writes_of (trace w).
Proof.
  intros Hfolder Hquote Hfile Hklines Hlast Hcsv Hne Htext.
  erewrite download_run by eassumption.
  unfold bind at 1.
  erewrite load_or_create_existing by exact Hcsv.
  destruct (load_existing (time_column cfg) df0) as [e|[df p]] eqn:Hload.
  - eexists _, _. split; [reflexivity|]. cbn. split; [reflexivity|].
    rewrite !requests_of_app, !writes_of_app. cbn. rewrite !app_nil_r. done.
  - unfold load_existing in Hload.
    destruct (parse_time_column (time_column cfg) df0) as [|df'] eqn:Hparse;
      [discriminate|].
    destruct (oldest_point_of df') as [|p'] eqn:Hold; [discriminate|].
    injection Hload as -> ->.
    unfold oldest_point_of in Hold.
    rewrite (parse_time_column_other _ _ _ _ Hne Hparse) in Hold.
    destruct (getitem "timestamp" df0) as [|series] eqn:Hget; [discriminate|].
    apply iloc_from_end_elem in Hold.
    assert (isoformat p = inl AttributeError) as Hiso.
    { destruct p as [s|t|t]; [reflexivity..|].
      destruct (Htext series (Stamp t) t eq_refl Hold eq_refl). }
    cbn [fst snd]. unfold bind at 1. rewrite Hiso.
    eexists _, _. split; [reflexivity|]. cbn. split; [reflexivity|].
    rewrite !requests_of_app, !writes_of_app. cbn. rewrite !app_nil_r. done.
Qed.

Lemma for_data_sources_skipped fuel cfg binance_freq dss :
  forall df_var w,
    Forall (fun ds => default "" (ds_folder ds) = "") dss ->
    all fuel cfg binance_freq dss df_var w
    = (Ok df_var, logged (replicate (length dss) (Error FolderNotSpecified)) w).
Proof.
  induction dss as [|ds dss IH]; intros df_var w Hall.
  - cbn. unfold ret, logged. cbn. rewrite app_nil_r. destruct w; reflexivity.
  - apply Forall_cons in Hall as [Hds Hall]. cbn [for_data_sources].
    rewrite (bind_ok _ _ _ _ _ (download_skipped _ _ _ _ _ _ Hds)).
    rewrite IH by exact Hall. rewrite logged_logged. reflexivity.
Qed.

End DownloadMore.

(** ** The files a run may change *)






Section FilesMore.

Variable clock : nat -> datetime.
Variable client : Client.
Variable klines_to_df : list Kline -> DataFrame -> DataFrame.

Local Abbreviation loop := (while_more_data_to_fetch client klines_to_df).
Local Abbreviation job := (get_binance_historical_klines clock client klines_to_df).
Local Abbreviation one := (download clock client klines_to_df).
Local Abbreviation all := (for_data_sources clock client klines_to_df).






End FilesMore.

(** ** The requests of a data source *)

Lemma emits_ret Q {A} (a : A) : emits Q (ret a).
Proof. intros w o w' [= <- <-]. exists []. rewrite app_nil_r. done. Qed.

Lemma emits_raise Q {A} e : emits Q (@raise A e).
Proof. intros w o w' [= <- <-]. exists []. rewrite app_nil_r. done. Qed.

Lemma emits_lift Q {A} (r : Exn + A) : emits Q (lift r).
Proof. destruct r; [apply emits_raise|apply emits_ret]. Qed.

Lemma emits_emit (Q : Event -> Prop) e : Q e -> emits Q (emit e).
Proof.
  intros He w o w' [= <- <-]. exists [e]. split; [reflexivity|].
  repeat constructor. exact He.
Qed.

Lemma emits_bind Q {A B} (m : M A) (k : A -> M B) :
  emits Q m -> (forall a, emits Q (k a)) -> emits Q (bind m k).
Proof.
  intros Hm Hk w o w'. unfold bind.
  destruct (m w) as [[a|e|] w1] eqn:Hrun;
    destruct (Hm _ _ _ Hrun) as (evs1 & Htr1 & HQ1).
  - intros Hrun2. destruct (Hk a _ _ _ Hrun2) as (evs2 & Htr2 & HQ2).
    exists (evs1 ++ evs2). split; [rewrite Htr2, Htr1, app_assoc; reflexivity|].
    apply Forall_app. done.
  - intros [= <- <-]. eauto.
  - intros [= <- <-]. eauto.
Qed.

Lemma emits_fixed Q {A} (m : M A) :
  (forall w, exists o, m w = (o, w)) -> emits Q m.
Proof.
  intros Hm w o w' Hrun. destruct (Hm w) as [o' Ho]. rewrite Ho in Hrun.
  injection Hrun as <- <-. exists []. rewrite app_nil_r. done.
Qed.

Lemma Forall_requests (Q : Event -> Prop) (P : Request -> Prop) evs :
  (forall r, Q (CallGetHistoricalKlines r) -> P r) ->
  Forall Q evs -> Forall P (requests_of evs).
Proof.
  intros HQP. induction 1 as [|e evs He Hevs IH]; [constructor|].
  unfold requests_of. cbn. destruct e; cbn; try exact IH.
  constructor; [apply HQP, He|exact IH].
Qed.

Section RequestsMore.

Variable clock : nat -> datetime.
Variable client : Client.
Variable klines_to_df : list Kline -> DataFrame -> DataFrame.

Local Abbreviation loop := (while_more_data_to_fetch client klines_to_df).
Local Abbreviation job := (get_binance_historical_klines clock client klines_to_df).
Local Abbreviation one := (download clock client klines_to_df).

Lemma emits_loop (Q : Event -> Prop) fuel now symbol interval start_str klines_type :
  (forall m, Q (Info m)) ->
  (forall until,
      Q (CallGetHistoricalKlines
           (request_until symbol interval start_str klines_type until))) ->
  forall start_point_dt df,
    emits Q (loop fuel now symbol interval start_str klines_type start_point_dt df).
Proof.
  intros Hinfo Hcall.
  induction fuel as [|fuel IH]; intros start_point_dt df; cbn [while_more_data_to_fetch].
  - intros w o w' [= <- <-]. exists []. rewrite app_nil_r. done.
  - apply emits_bind; [apply emits_emit, Hinfo|]. intros _.
    apply emits_bind.
    { apply emits_bind; [apply emits_emit, Hcall|]. intros _. apply emits_lift. }
    intros klines.
    apply emits_bind; [apply emits_emit, Hinfo|]. intros _.
    destruct (decide _); [apply IH|apply emits_ret].
Qed.

Lemma emits_download fuel cfg binance_freq ds df_var :
  emits (request_of_source binance_freq ds) (one fuel cfg binance_freq ds df_var).
Proof.
  unfold download. destruct (decide _).
  { apply emits_bind; [apply emits_emit; exact I|]. intros _. apply emits_ret. }
  apply emits_bind; [apply emits_emit; exact I|]. intros _.
  apply emits_bind; [apply emits_emit; exact I|]. intros _.
  apply emits_bind.
  { destruct (ds_file ds); [apply emits_ret|apply emits_raise]. }
  intros file_name.
  apply emits_bind.
  { apply emits_bind; [apply emits_emit; exact I|]. intros _. apply emits_lift. }
  intros latest_klines.
  apply emits_bind.
  { destruct (last latest_klines); [apply emits_ret|apply emits_raise]. }
  intros latest_ts.
  apply emits_bind.
  { unfold load_or_create.
    apply emits_bind; [apply emits_fixed; intros w; eexists; reflexivity|].
    intros found. destruct found; cbn.
    - apply emits_bind.
      { unfold read_csv. apply emits_bind; [apply emits_emit; exact I|].
        intros _. apply emits_fixed. intros w.
        destruct (files w !! file_name); eexists; reflexivity. }
      intros df. apply emits_bind; [apply emits_lift|]. intros loaded.
      apply emits_bind; [apply emits_emit; exact I|]. intros _. apply emits_ret.
    - apply emits_bind; [apply emits_emit; exact I|]. intros _. apply emits_ret. }
  intros loaded.
  apply emits_bind; [apply emits_lift|]. intros start_str.
  apply emits_bind; [|intros _; apply emits_ret].
  unfold get_binance_historical_klines.
  apply emits_bind.
  { intros w o w' [= <- <-]. exists []. cbn. rewrite app_nil_r. done. }
  intros now.
  apply emits_bind.
  { apply emits_loop; [intros m; exact I|]. intros end_str. cbn. done. }
  intros merged.
  apply emits_bind.
  { unfold to_csv. apply emits_bind; [apply emits_emit; exact I|]. intros _.
    intros w o w' [= <- <-]. exists []. cbn. rewrite app_nil_r. done. }
  intros _. apply emits_emit. exact I.
Qed.

(** X10. Every range request made for a data source, whatever the outcome
    of its download, asks for the symbol named by the folder of the source
    and for the interval of the run, with klines type [FUTURES] when the
    type of the source is exactly ["futures"] and [SPOT] in every other
    case (no type given, ["spot"], any other word). *)
Theorem requests_of_a_source fuel cfg binance_freq ds df_var w :
  exists rs,
    requests_of (trace (one fuel cfg binance_freq ds df_var w).2)
    = requests_of (trace w) ++ rs /\
    Forall (fun r =>
              req_symbol r = default "" (ds_folder ds) /\
              req_interval r = binance_freq /\
              req_klines_type r
              = if decide (ds_type ds = Some "futures") then FUTURES else SPOT)
      rs.
Proof.
  destruct (one fuel cfg binance_freq ds df_var w) as [o w'] eqn:Hrun.
  apply emits_download in Hrun as (evs & Htr & Hevs).
  exists (requests_of evs). split; [cbn; rewrite Htr; apply requests_of_app|].
  eapply Forall_requests; [|exact Hevs].
  intros r (Hs & Hi & Ht). repeat split; [exact Hs|exact Hi|].
  rewrite Ht. unfold klines_type_of.
  destruct (ds_type ds) as [ty|]; cbn.
  - destruct (decide (ty = "futures")) as [->|Hne].
    + rewrite decide_True by reflexivity. reflexivity.
    + rewrite decide_False by congruence. reflexivity.
  - rewrite decide_False by discriminate. reflexivity.
Qed.

End RequestsMore.

(** ** Runs that go through, runs that break off *)

Section OutcomesMore.

Variable clock : nat -> datetime.
Variable client : Client.
Variable klines_to_df : list Kline -> DataFrame -> DataFrame.

Local Abbreviation loop := (while_more_data_to_fetch client klines_to_df).
Local Abbreviation job := (get_binance_historical_klines clock client klines_to_df).
Local Abbreviation one := (download clock client klines_to_df).
Local Abbreviation answered :=
  (fun r : Request => exists a, get_historical_klines client r = inr a).


(** X11. A loop that raises, raises the error of the range request it sent
    last: every request before it was answered, the failing call is the
    last event of the loop, and no frame is handed over. *)
Theorem loop_raises_the_error_of_its_last_request fuel now symbol interval
    start_str klines_type :
  forall start_point_dt df w e w',
    loop fuel now symbol interval start_str klines_type start_point_dt df w
    = (Raise e, w') ->
    exists evs r,
      trace w' = trace w ++ evs ++ [CallGetHistoricalKlines r] /\
      get_historical_klines client r = inl e /\
      Forall answered (requests_of evs).
Proof.
  induction fuel as [|fuel IH]; intros start_point_dt df w e w' Hrun;
    [discriminate|].
  cbn [while_more_data_to_fetch] in Hrun.
  unfold bind, logger_info, client_get_historical_klines, emit, lift in Hrun.
  cbn in Hrun.
  destruct (decide (one_year < now - start_point_dt)) as [Hgt|Hle].
  - destruct (get_historical_klines client _) as [err|klines] eqn:Hcall;
      cbn in Hrun.
    + injection Hrun as <- <-. eexists [_], _. cbn.
      split; [rewrite <- app_assoc; reflexivity|]. split; [exact Hcall|].
      constructor.
    + apply IH in Hrun as (evs & r & Htr & Hr & Hans). cbn in Htr.
      eexists (_ :: _ :: _ :: evs), r.
      split; [rewrite Htr, <- !app_assoc; reflexivity|]. split; [exact Hr|].
      cbn. constructor; [eauto|exact Hans].
  - destruct (get_historical_klines client _) as [err|klines] eqn:Hcall;
      cbn in Hrun; [|discriminate].
    injection Hrun as <- <-. eexists [_], _. cbn.
    split; [rewrite <- app_assoc; reflexivity|]. split; [exact Hcall|].
    constructor.
Qed.

End OutcomesMore.

(** ** Runs of the cases *)

Lemma number_of_requests_witness :
  exists rs,
    requests_of (trace Sample.loop_run.2) = requests_of (trace Sample.world) ++ rs /\
    (1 <= length rs)%nat /\
    days 17866 - datetime_2017_01_01
    <= days 365 + (Z.of_nat (length rs) - 1) * days 364 /\
    ((1 < length rs)%nat ->
     days 365 + (Z.of_nat (length rs) - 2) * days 364
     < days 17866 - datetime_2017_01_01).
Proof.
  apply (number_of_requests Sample.client SeriesMerger.klines_to_df 2
           (days 17866) "BTCUSDT" "1m" datetime_2017_01_01 SPOT
           datetime_2017_01_01 empty_frame Sample.world Sample.loop_frame).
  vm_compute. reflexivity.
Defined.

Lemma merged_frame_folds_the_answers_witness :
  exists rs answers,
    requests_of (trace Sample.loop_run.2) = requests_of (trace Sample.world) ++ rs /\
    Forall2 (fun r a => get_historical_klines Sample.client r = inr a) rs answers /\
    Sample.loop_frame
    = foldl (fun d a => SeriesMerger.klines_to_df a d) empty_frame answers.
Proof.
  apply (merged_frame_folds_the_answers Sample.client SeriesMerger.klines_to_df 2
           (days 17866) "BTCUSDT" "1m" datetime_2017_01_01 SPOT
           datetime_2017_01_01 empty_frame Sample.world Sample.loop_frame).
  vm_compute. reflexivity.
Defined.

Lemma failures_before_the_file_witness :
  download Sample.clock Sample.client SeriesMerger.klines_to_df 1
    (Sample.cfg [Cases.fileless]) "1m" Cases.fileless None Sample.world
  = (Raise AttributeError,
     logged [Info (StartDownloading "BTCUSDT" "spot"); Mkdir "DATA/BTCUSDT"]
       Sample.world) /\
  download Sample.clock Cases.mute_client SeriesMerger.klines_to_df 1
    (Sample.cfg [Sample.btc]) "1m" Sample.btc None Sample.world
  = (Raise IndexError,
     logged [Info (StartDownloading "BTCUSDT" "spot"); Mkdir "DATA/BTCUSDT";
             CallGetKlines "BTCUSDT" "1m" 5] Sample.world) /\
  download Sample.clock Cases.down_client SeriesMerger.klines_to_df 1
    (Sample.cfg [Sample.btc]) "1m" Sample.btc None Sample.world
  = (Raise (BinanceAPIException (-1001)),
     logged [Info (StartDownloading "BTCUSDT" "spot"); Mkdir "DATA/BTCUSDT";
             CallGetKlines "BTCUSDT" "1m" 5] Sample.world).
Proof.
  split; [|split].
  - apply (failures_before_the_file Sample.clock Sample.client
             SeriesMerger.klines_to_df 1 (Sample.cfg [Cases.fileless]) "1m"
             Cases.fileless None Sample.world "BTCUSDT");
      [reflexivity|discriminate|reflexivity].
  - apply (proj2 (failures_before_the_file Sample.clock Cases.mute_client
                    SeriesMerger.klines_to_df 1 (Sample.cfg [Sample.btc]) "1m"
                    Sample.btc None Sample.world "BTCUSDT" eq_refl
                    ltac:(discriminate))
             "BTCUSDT/klines" eq_refl (inr [])); [reflexivity|].
    left. reflexivity.
  - apply (proj2 (failures_before_the_file Sample.clock Cases.down_client
                    SeriesMerger.klines_to_df 1 (Sample.cfg [Sample.btc]) "1m"
                    Sample.btc None Sample.world "BTCUSDT" eq_refl
                    ltac:(discriminate))
             "BTCUSDT/klines" eq_refl (inl (BinanceAPIException (-1001))));
      [reflexivity|].
    right. eexists. reflexivity.
Defined.

Lemma unreadable_table_stops_the_source_witness :
  download Sample.clock Sample.client SeriesMerger.klines_to_df 1
    (Sample.cfg [Sample.btc]) "1m" Sample.btc None Cases.world_garbled
  = (Raise ValueError,
     logged [Info (StartDownloading "BTCUSDT" "spot"); Mkdir "DATA/BTCUSDT";
             CallGetKlines "BTCUSDT" "1m" 5; ReadCsv "BTCUSDT/klines.csv"]
       Cases.world_garbled).
Proof.
  apply (unreadable_table_stops_the_source Sample.clock Sample.client
           SeriesMerger.klines_to_df 1 (Sample.cfg [Sample.btc]) "1m" Sample.btc
           None Cases.world_garbled "BTCUSDT" "BTCUSDT/klines"
           [Sample.bar 17865 "4100.5"] (Sample.bar 17865 "4100.5") Cases.garbled).
  - reflexivity.
  - discriminate.
  - reflexivity.
  - reflexivity.
  - reflexivity.
  - vm_compute. reflexivity.
  - reflexivity.
Defined.

Lemma other_time_column_never_resumes_witness :
  exists e w',
    download Sample.clock Sample.client SeriesMerger.klines_to_df 1
      Cases.cfg_time "1m" Sample.btc None Cases.world_time = (Raise e, w') /\
    files w' = files Cases.world_time /\
    requests_of (trace w') = requests_of (trace Cases.world_time) /\
    writes_of (trace w') = writes_of (trace Cases.world_time).
Proof.
  apply (other_time_column_never_resumes Sample.clock Sample.client
           SeriesMerger.klines_to_df 1 Cases.cfg_time "1m" Sample.btc None
           Cases.world_time "BTCUSDT" "BTCUSDT/klines"
           [Sample.bar 17865 "4100.5"] (Sample.bar 17865 "4100.5")
           Sample.both_columns).
  - reflexivity.
  - discriminate.
  - reflexivity.
  - reflexivity.
  - reflexivity.
  - vm_compute. reflexivity.
  - discriminate.
  - intros series c t Hget Hin. revert t. revert c Hin.
    apply (proj1 (Forall_forall (fun c => forall t, c <> Stamp t) series)).
    injection Hget as <-.
    repeat (apply Forall_cons_2; [intros t; discriminate|]).
    apply Forall_nil_2.
Defined.

Lemma loop_raises_the_error_of_its_last_request_witness :
  exists evs r,
    trace Cases.broken_loop.2
    = trace Sample.world ++ evs ++ [CallGetHistoricalKlines r] /\
    get_historical_klines Sample.failing_client r
    = inl (BinanceAPIException (-1003)) /\
    Forall (fun r => exists a, get_historical_klines Sample.failing_client r = inr a)
      (requests_of evs).
Proof.
  apply (loop_raises_the_error_of_its_last_request Sample.failing_client
           SeriesMerger.klines_to_df 2 (days 17866) "BTCUSDT" "1m"
           datetime_2017_01_01 SPOT datetime_2017_01_01 empty_frame Sample.world
           (BinanceAPIException (-1003))).
  vm_compute. reflexivity.
Defined.

(** ** The second of two runs *)

Section SyncTwice.

Import SeriesMerger.

Variable clock : nat -> datetime.
Variable client : Client.

Local Abbreviation one := (download clock client klines_to_df).





End SyncTwice.

(** ** The folders and files of a run *)



Section FileOperations.

Variable clock : nat -> datetime.
Variable client : Client.
Variable klines_to_df : list Kline -> DataFrame -> DataFrame.

Local Abbreviation loop := (while_more_data_to_fetch client klines_to_df).
Local Abbreviation job := (get_binance_historical_klines clock client klines_to_df).
Local Abbreviation one := (download clock client klines_to_df).
Local Abbreviation all := (for_data_sources clock client klines_to_df).




End FileOperations.

(** ** Runs of [main] *)

Section MainRuns.

Variable clock : nat -> datetime.
Variable new_client : string -> string -> Exn + Client.
Variable klines_to_df : list Kline -> DataFrame -> DataFrame.
Variable binance_freq_from_pandas : string -> string.

Local Abbreviation run :=
  (main clock new_client klines_to_df binance_freq_from_pandas).

(** X8. When no data source of the configuration has a folder, among them
    the configuration without data sources, [main] never returns.  It sets
    up its log file (the logs folder is created, the file handler attached)
    and constructs the client of the exchange.  If the constructor raises,
    so does [main], right there.  Otherwise [main] logs one error for each
    source, asks the exchange for no kline, reads and writes no table and
    creates no data folder; in the end [return df] raises
    [UnboundLocalError], as [df] was never assigned. *)
Theorem nothing_to_download fuel cfg w :
  Forall (fun ds => ds_folder ds = None \/ ds_folder ds = Some "")
    (data_sources cfg) ->
  (forall e,
      new_client (api_key cfg) (api_secret cfg) = inl e ->
      exists w',
        run fuel cfg w = (Raise e, w') /\
        trace w'
        = trace w
          ++ [LoadConfig;
              Makedirs (default "./logs" (logging_path cfg));
              AddFileHandler
                (path_join (default "./logs" (logging_path cfg))
                   "download_binance.log");
              Info LoadingConfigurations;
              NewClient (api_key cfg) (api_secret cfg)]) /\
  (forall client,
      new_client (api_key cfg) (api_secret cfg) = inr client ->
      exists w',
        run fuel cfg w = (Raise UnboundLocalError, w') /\
        trace w'
        = trace w
          ++ [LoadConfig;
              Makedirs (default "./logs" (logging_path cfg));
              AddFileHandler
                (path_join (default "./logs" (logging_path cfg))
                   "download_binance.log");
              Info LoadingConfigurations;
              NewClient (api_key cfg) (api_secret cfg);
              Info (StartingDownload (freq cfg)
                      (binance_freq_from_pandas (freq cfg)) (data_folder cfg))]
          ++ replicate (length (data_sources cfg)) (Error FolderNotSpecified)
          ++ [Info (FinishedDownloading (clock (S (ticks w)) - clock (ticks w)))]).
Proof.
  intros Hall.
  assert (Forall (fun ds => default "" (ds_folder ds) = "") (data_sources cfg))
    as Hskip.
  { eapply Forall_impl; [exact Hall|]. intros ds [-> | ->]; reflexivity. }
  split.
  - intros e Hnew. unfold main, logger_info.
    rewrite !(bind_ok _ _ _ _ _ (emit_logged _ _)).
    unfold bind at 1. unfold datetime_now at 1.
    unfold bind, emit, lift, raise. cbn. rewrite Hnew.
    eexists. split; [reflexivity|]. cbn.
    rewrite <- !app_assoc. reflexivity.
  - intros client Hnew. unfold main, logger_info.
    rewrite !(bind_ok _ _ _ _ _ (emit_logged _ _)).
    unfold bind at 1. unfold datetime_now at 1.
    unfold bind at 1. unfold bind at 1. unfold emit at 1, lift at 1.
    rewrite Hnew. unfold ret at 1.
    rewrite (bind_ok _ _ _ _ _ (emit_logged _ _)).
    rewrite (bind_ok _ _ _ _ _
               (for_data_sources_skipped _ _ _ _ _ _ _ _ _ Hskip)).
    unfold bind, datetime_now, emit, raise. cbn.
    eexists. split; [reflexivity|]. cbn.
    rewrite <- !app_assoc. reflexivity.
Qed.


End MainRuns.

(** ** The first download of a data source *)

Section FirstDownload.

Variable clock : nat -> datetime.
Variable client : Client.
Variable klines_to_df : list Kline -> DataFrame -> DataFrame.

Local Abbreviation loop := (while_more_data_to_fetch client klines_to_df).
Local Abbreviation job := (get_binance_historical_klines clock client klines_to_df).
Local Abbreviation one := (download clock client klines_to_df).
Local Abbreviation answered :=
  (fun r : Request => exists a, get_historical_klines client r = inr a).



End FirstDownload.

(** ** Runs of the sync, of [main] and of a first download *)


Lemma nothing_to_download_witness :
  (exists w',
      main Sample.clock Cases.no_connection SeriesMerger.klines_to_df
        Sample.binance_freq_from_pandas 1
        (Sample.cfg [Cases.unnamed; Cases.blank]) Sample.world
      = (Raise (BinanceAPIException (-1001)), w') /\
      trace w'
      = trace Sample.world
        ++ [LoadConfig; Makedirs "./logs";
            AddFileHandler (path_join "./logs" "download_binance.log");
            Info LoadingConfigurations; NewClient "key" "secret"]) /\
  (exists w',
      main Sample.clock (Sample.connect Sample.client)
        SeriesMerger.klines_to_df Sample.binance_freq_from_pandas 1
        (Sample.cfg [Cases.unnamed; Cases.blank]) Sample.world
      = (Raise UnboundLocalError, w') /\
      trace w'
      = trace Sample.world
        ++ [LoadConfig; Makedirs "./logs";
            AddFileHandler (path_join "./logs" "download_binance.log");
            Info LoadingConfigurations; NewClient "key" "secret";
            Info (StartingDownload "1min" "1m" "DATA")]
        ++ replicate 2 (Error FolderNotSpecified)
        ++ [Info (FinishedDownloading (Sample.clock 1 - Sample.clock 0))]).
Proof.
  assert (Forall (fun ds => ds_folder ds = None \/ ds_folder ds = Some "")
            (data_sources (Sample.cfg [Cases.unnamed; Cases.blank]))) as Hnone.
  { apply Forall_cons_2; [left; reflexivity|].
    apply Forall_cons_2; [right; reflexivity|].
    apply Forall_nil_2. }
  split.
  - apply (proj1 (nothing_to_download Sample.clock Cases.no_connection
                    SeriesMerger.klines_to_df Sample.binance_freq_from_pandas 1
                    (Sample.cfg [Cases.unnamed; Cases.blank]) Sample.world Hnone)
             (BinanceAPIException (-1001))).
    reflexivity.
  - apply (proj2 (nothing_to_download Sample.clock (Sample.connect Sample.client)
                    SeriesMerger.klines_to_df Sample.binance_freq_from_pandas 1
                    (Sample.cfg [Cases.unnamed; Cases.blank]) Sample.world Hnone)
             Sample.client).
    reflexivity.
Defined.


